(** * A model of the budget tracker core (src/app.py)

    The domain classes of [src/app.py] ([Category], [Expense], [BudgetMonth],
    [BudgetTrackerApp]) and the handlers of [main] that mutate them are
    embedded as state-passing functions.

    Conventions of the embedding:
    - Python floats are idealised as exact rationals [Q]; the literals
      [0.50], [0.80], [1.00], [100.0] and [1e-9] are the same decimals.
      Rounding is not modelled: the statements below speak of the
      comparisons the code makes and of sums as the code folds them, and
      the closed runs use whole numbers; no statement equates two sums
      that the code would compute along different routes.
    - Python [int]s (expense ids, bucket counts) are [Z].
    - A Python [dict] is an association list with unique keys kept in
      insertion order (module [Dict]).
    - [str] is [string]; [str.strip()] removes the ASCII white space that
      Python strips (codes 9-13, 28-31 and 32).
    - [BudgetMonth] objects live in an object store and are named by
      references, so that "the same instance" is expressible. *)

From Stdlib Require Import QArith ZArith List String Ascii Bool Lia Lqa.
From Stdlib Require Import Permutation.
Import ListNotations.

Set Implicit Arguments.

(** ** Numbers *)

(** [x <= y], [x < y] and [x > y] on floats, as booleans. *)
Definition Qleb (x y : Q) : bool := Qle_bool x y.
Definition Qltb (x y : Q) : bool := negb (Qle_bool y x).
Definition Qgtb (x y : Q) : bool := Qltb y x.

(** ** Decidable equality on keys *)

Class EqDec (K : Type) := eq_dec : forall a b : K, {a = b} + {a <> b}.

#[export] Instance string_EqDec : EqDec string := string_dec.
#[export] Instance Z_EqDec : EqDec Z := Z.eq_dec.

(** ** Python dictionaries *)

Definition dict (K V : Type) := list (K * V).

Module Dict.
Section Ops.
Context {K V : Type} `{EqDec K}.

(** [d.get(k)]: [None] when the key is absent. *)
Fixpoint get (k : K) (d : dict K V) : option V :=
  match d with
  | [] => None
  | (k', v) :: rest => if eq_dec k k' then Some v else get k rest
  end.

(** [k in d]. *)
Definition mem (k : K) (d : dict K V) : bool :=
  match get k d with Some _ => true | None => false end.

(** [d.get(k, default)]. *)
Definition get_default (k : K) (default : V) (d : dict K V) : V :=
  match get k d with Some v => v | None => default end.

(** [d[k] = v]: an existing key keeps its place, a new key goes last. *)
Fixpoint set (k : K) (v : V) (d : dict K V) : dict K V :=
  match d with
  | [] => [(k, v)]
  | (k', v') :: rest =>
      if eq_dec k k' then (k', v) :: rest else (k', v') :: set k v rest
  end.

(** [del d[k]], for a key that is present (the callers check it). *)
Definition del (k : K) (d : dict K V) : dict K V :=
  filter (fun kv => if eq_dec k (fst kv) then false else true) d.

Definition keys (d : dict K V) : list K := map fst d.
Definition values (d : dict K V) : list V := map snd d.

End Ops.
End Dict.

(** ** Strings *)

(** The ASCII characters for which [str.isspace()] holds. *)
Definition is_space (c : ascii) : bool :=
  let n := nat_of_ascii c in
  ((9 <=? n)%nat && (n <=? 13)%nat)
  || ((28 <=? n)%nat && (n <=? 31)%nat)
  || (n =? 32)%nat.

Fixpoint lstrip_chars (l : list ascii) : list ascii :=
  match l with
  | [] => []
  | c :: rest => if is_space c then lstrip_chars rest else l
  end.

(** [s.strip()] *)
Definition strip (s : string) : string :=
  string_of_list_ascii
    (rev (lstrip_chars (rev (lstrip_chars (list_ascii_of_string s))))).

(** [not s] for a string: true exactly for the empty string. *)
Definition str_is_empty (s : string) : bool :=
  match s with EmptyString => true | String _ _ => false end.

(** ** Dates and month keys *)

Record date := { year : Z; month : Z; day : Z }.

#[export] Instance date_EqDec : EqDec date.
Proof. intros a b. unfold EqDec in *. decide equality; apply Z.eq_dec. Defined.

Fixpoint zero_pad (width : nat) (n : Z) : string :=
  match width with
  | O => EmptyString
  | S w =>
      (zero_pad w (n / 10)
       ++ String (ascii_of_nat (48 + Z.to_nat (n mod 10))) EmptyString)%string
  end.

(** [d.strftime("%Y-%m")] *)
Definition month_key_from_date (d : date) : string :=
  (zero_pad 4 (year d) ++ "-" ++ zero_pad 2 (month d))%string.

(** ** Status classification *)

(** The five icons returned by [calc_status]:
    [Info] "ℹ️", [Safe] "✅", [Alert] "⚠️", [Warning] "🔶", [Danger] "🛑". *)
Inductive Status := Info | Safe | Alert | Warning | Danger.

#[export] Instance Status_EqDec : EqDec Status.
Proof. intros a b. unfold EqDec in *. decide equality. Defined.

Definition calc_status (spent limit : Q) : Status :=
  if Qleb limit 0 then Info
  else
    let ratio := spent / limit in
    if Qltb ratio 0.50 then Safe
    else if Qltb ratio 0.80 then Alert
    else if Qltb ratio 1.00 then Warning
    else Danger.

Definition get_progress_color (ratio : Q) : string :=
  if Qltb ratio 0.50 then "#4CAF50"
  else if Qltb ratio 0.80 then "#FFC107"
  else if Qltb ratio 1.00 then "#FF9800"
  else "#F44336".

(** ** Python built-ins *)

(** [max(first, *rest, key=key)] on a non-empty sequence: a later item wins
    only when its key is strictly greater. *)
Definition max_from {A : Type} (key : A -> Q) (first : A) (rest : list A) : A :=
  fold_left (fun best x => if Qgtb (key x) (key best) then x else best)
    rest first.

(** [min(first, *rest, key=key)]: a later item wins only when its key is
    strictly smaller. *)
Definition min_from {A : Type} (key : A -> Q) (first : A) (rest : list A) : A :=
  fold_left (fun best x => if Qltb (key x) (key best) then x else best)
    rest first.

(** [min(a, b)] of two numbers: [b] only when [b < a]. *)
Definition min2 (a b : Q) : Q := if Qltb b a then b else a.

(** [max(a, b)] of two numbers: [b] only when [b > a]. *)
Definition max2 (a b : Q) : Q := if Qgtb b a then b else a.

(** ** Data models *)

Module Category.

Record t := mk { name : string; limit_type : string; value : Q }.

Definition calc_limit (self : t) (monthly_budget : Q) : Q :=
  if String.eqb (limit_type self) "percent"
  then monthly_budget * (value self / 100.0)
  else value self.

End Category.

Module Expense.

Record t := mk {
  expense_id : Z;
  d : date;
  amount : Q;
  category : string;
  description : string
}.

Definition set_category (c : string) (e : t) : t :=
  mk (expense_id e) (d e) (amount e) c (description e).

End Expense.

(** The messages of [delete_category]:
    "Category not found.", "Deletion cancelled." and
    "Category '<name>' deleted successfully." *)
Inductive DeleteMsg :=
| MsgNotFound
| MsgCancelled
| MsgDeleted (name : string).

Module BudgetMonth.

Record t := mk {
  month_key : string;
  budget : option Q;
  categories : dict string Category.t;
  expenses : list Expense.t;
  _next_expense_id : Z
}.

Definition init (month_key : string) : t :=
  mk month_key None [] [] 1.

Definition is_setup (self : t) : bool :=
  match budget self with
  | Some _ => (0 <? List.length (categories self))%nat
  | None => false
  end.

Definition set_budget (new_budget : Q) (self : t) : t :=
  mk (month_key self) (Some new_budget) (categories self) (expenses self)
     (_next_expense_id self).

Definition with_categories (cs : dict string Category.t) (self : t) : t :=
  mk (month_key self) (budget self) cs (expenses self) (_next_expense_id self).

Definition with_expenses (es : list Expense.t) (self : t) : t :=
  mk (month_key self) (budget self) (categories self) es
     (_next_expense_id self).

Definition add_category (cat : Category.t) (self : t) : bool * t :=
  let name := strip (Category.name cat) in
  if str_is_empty name || Dict.mem name (categories self)
  then (false, self)
  else (true, with_categories (Dict.set name cat (categories self)) self).

Definition update_category_limit (name limit_type : string) (value : Q)
    (self : t) : bool * t :=
  match Dict.get name (categories self) with
  | None => (false, self)
  | Some c =>
      (true,
       with_categories
         (Dict.set name (Category.mk (Category.name c) limit_type value)
            (categories self))
         self)
  end.

Definition category_has_expenses (name : string) (self : t) : bool :=
  existsb (fun e => String.eqb (Expense.category e) name) (expenses self).

(** The loop [for e in self.expenses: if e.category == name: e.category = "Other"]. *)
Definition reassign (name : string) (es : list Expense.t) : list Expense.t :=
  map (fun e =>
         if String.eqb (Expense.category e) name
         then Expense.set_category "Other" e
         else e)
      es.

Definition delete_category (name : string) (move_to_other : bool) (self : t)
    : (bool * DeleteMsg) * t :=
  if negb (Dict.mem name (categories self)) then ((false, MsgNotFound), self)
  else if category_has_expenses name self && negb move_to_other
  then ((false, MsgCancelled), self)
  else
    let moved :=
      if category_has_expenses name self then
        let cats :=
          if negb (Dict.mem "Other"%string (categories self))
          then Dict.set "Other"%string
                 (Category.mk "Other" "fixed" (inject_Z (10 ^ 18)))
                 (categories self)
          else categories self in
        mk (month_key self) (budget self) cats
           (reassign name (expenses self)) (_next_expense_id self)
      else self in
    ((true, MsgDeleted name),
     with_categories (Dict.del name (categories moved)) moved).

Definition add_expense (d : date) (amount : Q) (category description : string)
    (self : t) : Expense.t * t :=
  let exp :=
    Expense.mk (_next_expense_id self) d amount category (strip description) in
  (exp,
   mk (month_key self) (budget self) (categories self)
      (expenses self ++ [exp]) (_next_expense_id self + 1)).

(** Removes the first expense bearing the id, as the loop with
    [self.expenses.pop(i); return True] does. *)
Fixpoint pop_first (expense_id : Z) (es : list Expense.t)
    : option (list Expense.t) :=
  match es with
  | [] => None
  | e :: rest =>
      if Z.eqb (Expense.expense_id e) expense_id then Some rest
      else match pop_first expense_id rest with
           | Some rest' => Some (e :: rest')
           | None => None
           end
  end.

Definition delete_expense_by_id (expense_id : Z) (self : t) : bool * t :=
  match pop_first expense_id (expenses self) with
  | Some es => (true, with_expenses es self)
  | None => (false, self)
  end.

Definition get_expense_by_id (expense_id : Z) (self : t) : option Expense.t :=
  find (fun e => Z.eqb (Expense.expense_id e) expense_id) (expenses self).

(** [sum(e.amount for e in self.expenses)]: a left fold from [0]. *)
Definition total_expenses (self : t) : Q :=
  fold_left (fun acc e => acc + Expense.amount e) (expenses self) 0.

Definition total_by_category (self : t) : dict string Q :=
  fold_left
    (fun totals e =>
       Dict.set (Expense.category e)
         (Dict.get_default (Expense.category e) 0.0 totals + Expense.amount e)
         totals)
    (expenses self) [].

(** [{"✅": 0, "⚠️": 0, "🔶": 0, "🛑": 0}] *)
Definition empty_counts : dict Status Z :=
  [(Safe, 0%Z); (Alert, 0%Z); (Warning, 0%Z); (Danger, 0%Z)].

(** [if icon in counts: counts[icon] += 1] *)
Definition bump (icon : Status) (counts : dict Status Z) : dict Status Z :=
  match Dict.get icon counts with
  | Some c => Dict.set icon (c + 1)%Z counts
  | None => counts
  end.

Definition status_summary_counts (self : t) : dict Status Z :=
  let counts := empty_counts in
  match budget self with
  | None => counts
  | Some b =>
      let totals := total_by_category self in
      fold_left
        (fun counts item =>
           let '(name, cat) := item in
           let limit := Category.calc_limit cat b in
           let spent := Dict.get_default name 0.0 totals in
           let icon := calc_status spent limit in
           bump icon counts)
        (categories self) counts
  end.

(** [(None, None)] without expenses, else the items of [total_by_category]
    with the greatest and the smallest total. *)
Definition top_and_lowest_category (self : t)
    : option (string * Q) * option (string * Q) :=
  let totals := total_by_category self in
  match totals with
  | [] => (None, None)
  | first :: rest =>
      let top := max_from snd first rest in
      let low := min_from snd first rest in
      (Some top, Some low)
  end.



End BudgetMonth.

(** ** The application object and its store of months *)

Module BudgetTrackerApp.

(** A reference to a [BudgetMonth] object: its index in the store. *)
Definition ref := nat.

Record t := mk {
  months : dict string ref;
  objects : list BudgetMonth.t
}.

Definition default_categories : list Category.t :=
  [ Category.mk "Expenses" "percent" 50.0;
    Category.mk "Entertainment" "percent" 10.0;
    Category.mk "Charity" "percent" 10.0;
    Category.mk "Savings" "percent" 10.0;
    Category.mk "Investment" "percent" 10.0;
    Category.mk "Education" "percent" 10.0 ].

Definition init : t := mk [] [].

Definition deref (r : ref) (self : t) : option BudgetMonth.t :=
  nth_error (objects self) r.

Fixpoint list_set {A : Type} (l : list A) (n : nat) (x : A) : list A :=
  match l, n with
  | [], _ => []
  | _ :: rest, O => x :: rest
  | y :: rest, S n' => y :: list_set rest n' x
  end.

(** The effect of mutating the object behind [r] into [m]. *)
Definition store (r : ref) (m : BudgetMonth.t) (self : t) : t :=
  mk (months self) (list_set (objects self) r m).

Definition get_month (month_key : string) (self : t) : ref * t :=
  match Dict.get month_key (months self) with
  | Some r => (r, self)
  | None =>
      let r := List.length (objects self) in
      (r, mk (Dict.set month_key r (months self))
             (objects self ++ [BudgetMonth.init month_key]))
  end.

End BudgetTrackerApp.

(** ** The handlers of [main]

    Each handler is one run of the script with one button pressed; [cur] is
    the reference held by [current_month]. *)

Inductive Notice :=
| Silent
| ErrAmountNotPositive
| ErrMonthNotSetUp (target_month_key : string)
| ErrBudgetExceeded (left : Q)
| OkExpenseAdded
| ErrValueNotPositive
| ErrNameRequired
| ErrNameExists
| ErrLimitsExceeded (max_available : Q)
| OkListed
| OkCategoryAdded
| OkSetupSaved
| OkBudgetUpdated
| OkExpenseDeleted
| OkExpenseUpdated
| RaisedValueError.

Module UI.

Import BudgetTrackerApp.

(** [sum(c.calc_limit(budget) for c in cats)] *)
Definition allocated (budget : Q) (cats : list Category.t) : Q :=
  fold_left (fun acc c => acc + Category.calc_limit c budget) cats 0.

(** [requested_sar] of both category forms. *)
Definition requested (new_type : string) (new_val budget : Q) : Q :=
  if String.eqb new_type "fixed" then new_val else new_val / 100 * budget.

(** Tab 1, "Save Month Setup" (default categories). *)
Definition setup_save_default (cur : ref) (budget_input : Q) (app : t)
    : Notice * t :=
  match deref cur app with
  | None => (Silent, app)
  | Some current_month =>
      if BudgetMonth.is_setup current_month then (Silent, app)
      else
        let m0 := BudgetMonth.set_budget budget_input current_month in
        let m1 :=
          fold_left
            (fun m c =>
               snd (BudgetMonth.add_category
                      (Category.mk (Category.name c) (Category.limit_type c)
                         (Category.value c)) m))
            default_categories m0 in
        (OkSetupSaved, store cur m1 app)
  end.

(** Tab 1, "Add to List" of the custom-category form; the state is
    [st.session_state.temp_cats]. *)
Definition setup_add_to_list (budget_input : Q) (new_name new_type : string)
    (new_val : Q) (temp_cats : list Category.t) : Notice * list Category.t :=
  let allocated_sar := allocated budget_input temp_cats in
  let remaining_sar := budget_input - allocated_sar in
  let remaining_pct :=
    if Qgtb budget_input 0 then remaining_sar / budget_input * 100 else 0 in
  if Qleb new_val 0 then (ErrValueNotPositive, temp_cats)
  else if str_is_empty (strip new_name) then (ErrNameRequired, temp_cats)
  else
    let requested_sar := requested new_type new_val budget_input in
    if Qgtb requested_sar (remaining_sar + 1e-9) then
      (ErrLimitsExceeded
         (if String.eqb new_type "percent" then remaining_pct
          else remaining_sar),
       temp_cats)
    else (OkListed, temp_cats ++ [Category.mk new_name new_type new_val]).

(** Tab 1, "Finalize Setup & Save All". *)
Definition setup_finalize (cur : ref) (budget_input : Q)
    (temp_cats : list Category.t) (app : t)
    : Notice * (t * list Category.t) :=
  match deref cur app with
  | None => (Silent, (app, temp_cats))
  | Some current_month =>
      if BudgetMonth.is_setup current_month then (Silent, (app, temp_cats))
      else
        match temp_cats with
        | [] => (Silent, (app, temp_cats))
        | _ =>
            let m0 := BudgetMonth.set_budget budget_input current_month in
            let m1 :=
              fold_left (fun m c => snd (BudgetMonth.add_category c m))
                temp_cats m0 in
            (OkSetupSaved, (store cur m1 app, []))
        end
  end.

(** Tab 2, "Save Expense". *)
Definition add_expense_submit (cur : ref) (exp_date : date) (exp_cat : string)
    (exp_amount : Q) (exp_desc : string) (app : t) : Notice * t :=
  match deref cur app with
  | None => (Silent, app)
  | Some current_month =>
      if negb (BudgetMonth.is_setup current_month) then (Silent, app)
      else if Qleb exp_amount 0 then (ErrAmountNotPositive, app)
      else
        let target_month_key := month_key_from_date exp_date in
        let '(target, app1) := get_month target_month_key app in
        match deref target app1 with
        | None => (Silent, app1)
        | Some target_month =>
            if negb (BudgetMonth.is_setup target_month)
            then (ErrMonthNotSetUp target_month_key, app1)
            else
              match BudgetMonth.budget target_month with
              | None => (Silent, app1)
              | Some budget =>
                  let current_total :=
                    BudgetMonth.total_expenses target_month in
                  if Qgtb (current_total + exp_amount) (budget + 1e-9)
                  then (ErrBudgetExceeded (budget - current_total), app1)
                  else
                    let '(_, m) :=
                      BudgetMonth.add_expense exp_date exp_amount exp_cat
                        exp_desc target_month in
                    (OkExpenseAdded, store target m app1)
              end
        end
  end.

(** Tab 4, "Update Budget". *)
Definition settings_update_budget (cur : ref) (new_budget : Q) (app : t)
    : Notice * t :=
  match deref cur app with
  | None => (Silent, app)
  | Some current_month =>
      if negb (BudgetMonth.is_setup current_month) then (Silent, app)
      else (OkBudgetUpdated,
            store cur (BudgetMonth.set_budget new_budget current_month) app)
  end.

(** Tab 4, "Add Category". *)
Definition settings_add_category (cur : ref) (new_name new_type : string)
    (new_val : Q) (app : t) : Notice * t :=
  match deref cur app with
  | None => (Silent, app)
  | Some current_month =>
      if negb (BudgetMonth.is_setup current_month) then (Silent, app)
      else
        match BudgetMonth.budget current_month with
        | None => (Silent, app)
        | Some budget =>
            let allocated_sar :=
              allocated budget
                (Dict.values (BudgetMonth.categories current_month)) in
            let remaining_sar := budget - allocated_sar in
            let remaining_pct :=
              if Qgtb budget 0 then remaining_sar / budget * 100 else 0 in
            if Qleb new_val 0 then (ErrValueNotPositive, app)
            else if str_is_empty (strip new_name) then (ErrNameRequired, app)
            else if Dict.mem new_name (BudgetMonth.categories current_month)
            then (ErrNameExists, app)
            else
              let requested_sar := requested new_type new_val budget in
              if Qgtb requested_sar (remaining_sar + 1e-9) then
                (ErrLimitsExceeded
                   (if String.eqb new_type "percent" then remaining_pct
                    else remaining_sar),
                 app)
              else
                let '(ok, m) :=
                  BudgetMonth.add_category
                    (Category.mk new_name new_type new_val) current_month in
                if ok then (OkCategoryAdded, store cur m app)
                else (Silent, store cur m app)
        end
  end.

(** Tab 4, "Delete Selected Category"; [None] when the button is not on
    the page. *)
Definition settings_delete_category (cur : ref) (del_c_name : string)
    (del_move : bool) (app : t) : option (bool * DeleteMsg) * t :=
  match deref cur app with
  | None => (None, app)
  | Some current_month =>
      if negb (BudgetMonth.is_setup current_month) then (None, app)
      else
        let '(res, m) :=
          BudgetMonth.delete_category del_c_name del_move current_month in
        (Some res, store cur m app)
  end.

(** Tab 4, "Delete Expense". *)
Definition delete_expense (cur : ref) (selected_exp_id : Z) (app : t)
    : Notice * t :=
  match deref cur app with
  | None => (Silent, app)
  | Some current_month =>
      if negb (BudgetMonth.is_setup current_month) then (Silent, app)
      else
        let '(_, m) :=
          BudgetMonth.delete_expense_by_id selected_exp_id current_month in
        (OkExpenseDeleted, store cur m app)
  end.

(** The three assignments to [target_exp], the object found by
    [get_expense_by_id]: the first expense of the list bearing the id. *)
Fixpoint edit_first (expense_id : Z) (amt : Q) (cat desc : string)
    (es : list Expense.t) : list Expense.t :=
  match es with
  | [] => []
  | e :: rest =>
      if Z.eqb (Expense.expense_id e) expense_id
      then Expense.mk (Expense.expense_id e) (Expense.d e) amt cat desc :: rest
      else e :: edit_first expense_id amt cat desc rest
  end.

(** Tab 4, "Save Changes" of the edit form. While the form is drawn,
    [list(current_month.categories.keys()).index(target_exp.category)]
    raises [ValueError] when the category of the selected expense is not a
    key of the category map: the script stops there and nothing is saved. *)
Definition edit_expense_save (cur : ref) (selected_exp_id : Z) (edit_amt : Q)
    (edit_cat edit_desc : string) (app : t) : Notice * t :=
  match deref cur app with
  | None => (Silent, app)
  | Some current_month =>
      if negb (BudgetMonth.is_setup current_month) then (Silent, app)
      else
        match BudgetMonth.get_expense_by_id selected_exp_id current_month with
        | None => (Silent, app)
        | Some target_exp =>
            if negb (Dict.mem (Expense.category target_exp)
                       (BudgetMonth.categories current_month))
            then (RaisedValueError, app)
            else
              (OkExpenseUpdated,
               store cur
                 (BudgetMonth.with_expenses
                    (edit_first selected_exp_id edit_amt edit_cat edit_desc
                       (BudgetMonth.expenses current_month))
                    current_month)
                 app)
        end
  end.

(** One row of "Category Limits & Progress" in the overview tab. *)
Record ProgressRow := mk_row {
  row_spent : Q;
  row_limit : Q;
  row_icon : Status;
  row_pct : Q;
  row_bar_color : string;
  row_visual_width : Q
}.

Definition progress_row (totals : dict string Q) (budget : Q)
    (cat_name : string) (cat : Category.t) : ProgressRow :=
  let spent := Dict.get_default cat_name 0.0 totals in
  let limit := Category.calc_limit cat budget in
  let icon := calc_status spent limit in
  let pct := if Qleb limit 0 then 0.0 else spent / limit in
  let bar_color := get_progress_color pct in
  let visual_width := min2 (pct * 100) 100 in
  mk_row spent limit icon pct bar_color visual_width.

End UI.

(** ** Vocabulary of the properties *)

(** A ledger operation on one month: [add_expense] or
    [delete_expense_by_id]. *)
Inductive LedgerOp :=
| OpAdd (d : date) (amount : Q) (category description : string)
| OpDelete (expense_id : Z).

(** Runs the operations in order; returns the ids handed out by the
    [add_expense] calls, oldest first, and the final month. *)
Fixpoint run_ledger (ops : list LedgerOp) (m : BudgetMonth.t)
    : list Z * BudgetMonth.t :=
  match ops with
  | [] => ([], m)
  | OpAdd d amount category description :: rest =>
      let '(e, m1) := BudgetMonth.add_expense d amount category description m in
      let '(ids, m2) := run_ledger rest m1 in
      (Expense.expense_id e :: ids, m2)
  | OpDelete expense_id :: rest =>
      run_ledger rest (snd (BudgetMonth.delete_expense_by_id expense_id m))
  end.

Definition is_add (op : LedgerOp) : bool :=
  match op with OpAdd _ _ _ _ => true | OpDelete _ => false end.

Definition expense_ids (m : BudgetMonth.t) : list Z :=
  map Expense.expense_id (BudgetMonth.expenses m).

(** The status of one category entry of a month whose budget is [b]:
    [calc_status] of its spend total and of its limit. *)
Definition category_status (m : BudgetMonth.t) (b : Q)
    (item : string * Category.t) : Status :=
  calc_status
    (Dict.get_default (fst item) 0.0 (BudgetMonth.total_by_category m))
    (Category.calc_limit (snd item) b).

Definition Status_eqb (a b : Status) : bool :=
  if eq_dec a b then true else false.

(** How many of the items have status [st]. *)
Definition tally {A : Type} (status_of : A -> Status) (st : Status)
    (items : list A) : Z :=
  Z.of_nat
    (List.length (filter (fun x => Status_eqb (status_of x) st) items)).

(** How many categories of the month have status [st]. *)
Definition count_status (m : BudgetMonth.t) (b : Q) (st : Status) : Z :=
  tally (category_status m b) st (BudgetMonth.categories m).

(** The amounts logged against [name], oldest first. *)
Definition amounts_of (name : string) (es : list Expense.t) : list Q :=
  map Expense.amount
    (filter (fun e => String.eqb (Expense.category e) name) es).

(** The sum of the limits of the categories of a month, under budget [b]. *)
Definition allocation (m : BudgetMonth.t) (b : Q) : Q :=
  UI.allocated b (Dict.values (BudgetMonth.categories m)).

(** Well-formed dictionaries: no key occurs twice. *)
Definition unique_keys {K V : Type} (d : dict K V) : Prop :=
  NoDup (map fst d).

(** [zseq start n] is [start; start+1; ...], [n] numbers. *)
Fixpoint zseq (start : Z) (n : nat) : list Z :=
  match n with
  | O => []
  | S n' => start :: zseq (start + 1) n'
  end.

(** The number of categories counted by a [status_summary_counts] result. *)
Definition counted (counts : dict Status Z) : Z :=
  fold_left Z.add (Dict.values counts) 0%Z.

(** Every reference held by the registry names an object of the store. *)
Definition refs_valid (app : BudgetTrackerApp.t) : Prop :=
  forall k r,
    Dict.get k (BudgetTrackerApp.months app) = Some r ->
    (r < List.length (BudgetTrackerApp.objects app))%nat.

(** The ledger invariant of a month: stored ids are pairwise distinct and
    all below the next id to hand out. *)
Definition ledger_inv (m : BudgetMonth.t) : Prop :=
  NoDup (expense_ids m) /\
  Forall (fun i => (i < BudgetMonth._next_expense_id m)%Z) (expense_ids m).

(** Every expense of the month references a category of the month. *)
Definition references_ok (m : BudgetMonth.t) : Prop :=
  forall e, In e (BudgetMonth.expenses m) ->
            Dict.mem (Expense.category e) (BudgetMonth.categories m) = true.

(** The registry invariant: no key twice, no object under two keys, and
    every reference names an object of the store. *)
Definition registry_inv (app : BudgetTrackerApp.t) : Prop :=
  unique_keys (BudgetTrackerApp.months app) /\
  NoDup (Dict.values (BudgetTrackerApp.months app)) /\
  refs_valid app.

(** The loop [for x in l: d[key(x)] = d.get(key(x), 0.0) + val(x)] of
    [total_by_category] and [highest_spending_day], from dictionary [d0]. *)
Definition grouped {K A : Type} `{EqDec K} (key : A -> K) (val : A -> Q)
    (l : list A) (d0 : dict K Q) : dict K Q :=
  fold_left
    (fun totals x =>
       Dict.set (key x) (Dict.get_default (key x) 0.0 totals + val x) totals)
    l d0.

(** A date whose year has four digits and whose month is a month. *)
Definition plain_date (d : date) : Prop :=
  (1000 <= year d <= 9999)%Z /\ (1 <= month d <= 12)%Z.

(** ** Sample states *)

Definition march_5 : date := {| year := 2024; month := 3; day := 5 |}.

(** Budget 1000, one category "Food" capped at 500, expenses of 300 and 250
    logged against it. *)
Definition food_month : BudgetMonth.t :=
  let m0 := BudgetMonth.set_budget 1000 (BudgetMonth.init "2024-03") in
  let m1 := snd (BudgetMonth.add_category (Category.mk "Food" "fixed" 500) m0) in
  let m2 := snd (BudgetMonth.add_expense march_5 300 "Food" "groceries" m1) in
  snd (BudgetMonth.add_expense march_5 250 "Food" "dinner" m2).

(** [food_month] after [delete_category("Food", True)]: the two expenses now
    sit in the "Other" category made by the deletion. *)
Definition other_month : BudgetMonth.t :=
  snd (BudgetMonth.delete_category "Food" true food_month).

(** Budget 100 and a single category whose fixed cap is 0. *)
Definition zero_cap_month : BudgetMonth.t :=
  snd (BudgetMonth.add_category (Category.mk "Misc" "fixed" 0)
         (BudgetMonth.set_budget 100 (BudgetMonth.init "2024-03"))).

(** An application whose month 2024-03 was set up with a budget of 1000 and
    the default categories, followed by one expense of 300. *)
Definition app_one_expense : BudgetTrackerApp.ref * BudgetTrackerApp.t :=
  let '(cur, a0) := BudgetTrackerApp.get_month "2024-03" BudgetTrackerApp.init in
  let a1 := snd (UI.setup_save_default cur 1000 a0) in
  (cur, snd (UI.add_expense_submit cur march_5 "Expenses" 300 "rent" a1)).

(** The same application after the edit form raised that expense to 5000. *)
Definition app_after_edit : BudgetTrackerApp.t :=
  snd (UI.edit_expense_save (fst app_one_expense) 1 5000 "Expenses" "rent"
         (snd app_one_expense)).

(** The month 2024-03 of those two applications. *)
Definition month_one_expense : option BudgetMonth.t :=
  BudgetTrackerApp.deref (fst app_one_expense) (snd app_one_expense).

Definition month_after_edit : option BudgetMonth.t :=
  BudgetTrackerApp.deref (fst app_one_expense) app_after_edit.

(** The allocation scenario: a budget of 1000 set up through the custom
    form with "Food" (fixed 400) and "Fun" (20 percent). *)
Definition app_food_fun : BudgetTrackerApp.ref * BudgetTrackerApp.t :=
  let '(cur, a0) := BudgetTrackerApp.get_month "2024-03" BudgetTrackerApp.init in
  let l1 := snd (UI.setup_add_to_list 1000 "Food" "fixed" 400 []) in
  let l2 := snd (UI.setup_add_to_list 1000 "Fun" "percent" 20 l1) in
  (cur, fst (snd (UI.setup_finalize cur 1000 l2 a0))).

(** The allocation of the month behind [cur], under budget [b]. *)
Definition allocation_at (cur : BudgetTrackerApp.ref) (b : Q)
    (app : BudgetTrackerApp.t) : option Q :=
  option_map (fun m => allocation m b) (BudgetTrackerApp.deref cur app).

(** * Properties *)

(** ** Boolean comparisons *)

Lemma Qleb_true (x y : Q) : Qleb x y = true <-> x <= y.
Proof. unfold Qleb. apply Qle_bool_iff. Qed.

Lemma Qleb_false (x y : Q) : Qleb x y = false <-> y < x.
Proof.
  unfold Qleb. split; intro Hxy.
  - apply Qnot_le_lt. intro Hle. apply Qle_bool_iff in Hle. congruence.
  - destruct (Qle_bool x y) eqn:E; [|reflexivity].
    apply Qle_bool_iff in E. exfalso. apply (Qlt_not_le _ _ Hxy E).
Qed.

Lemma Qltb_true (x y : Q) : Qltb x y = true <-> x < y.
Proof.
  unfold Qltb. rewrite negb_true_iff. apply (Qleb_false y x).
Qed.

Lemma Qltb_false (x y : Q) : Qltb x y = false <-> y <= x.
Proof.
  unfold Qltb. rewrite negb_false_iff. apply (Qleb_true y x).
Qed.

Lemma Qgtb_true (x y : Q) : Qgtb x y = true <-> y < x.
Proof. unfold Qgtb. apply Qltb_true. Qed.

Lemma Qgtb_false (x y : Q) : Qgtb x y = false <-> x <= y.
Proof. unfold Qgtb. apply Qltb_false. Qed.

(** ** Dictionaries *)

Section DictFacts.
Context {K V : Type} `{EqDec K}.
Implicit Types (k : K) (v : V) (d : dict K V).

Lemma mem_true_iff k d : Dict.mem k d = true <-> In k (Dict.keys d).
Proof.
  unfold Dict.mem, Dict.keys.
  induction d as [|[k' v'] d IH]; simpl.
  - split; [discriminate | tauto].
  - destruct (eq_dec k k') as [->|Hne].
    + split; auto.
    + rewrite IH. split; [auto | intros [Heq|Hin]; [congruence | assumption]].
Qed.

Lemma mem_false_iff k d : Dict.mem k d = false <-> ~ In k (Dict.keys d).
Proof.
  rewrite <- mem_true_iff. destruct (Dict.mem k d); split; congruence.
Qed.

Lemma mem_of_get_none k d : Dict.get k d = None -> Dict.mem k d = false.
Proof. unfold Dict.mem. now intros ->. Qed.

Lemma mem_of_get_some k v d : Dict.get k d = Some v -> Dict.mem k d = true.
Proof. unfold Dict.mem. now intros ->. Qed.

Lemma get_set_same k v d : Dict.get k (Dict.set k v d) = Some v.
Proof.
  induction d as [|[k' v'] d IH]; simpl.
  - destruct (eq_dec k k); congruence.
  - destruct (eq_dec k k') as [Heq|Hne]; simpl.
    + destruct (eq_dec k k'); congruence.
    + destruct (eq_dec k k'); congruence.
Qed.

Lemma get_set_other k k' v d :
  k <> k' -> Dict.get k' (Dict.set k v d) = Dict.get k' d.
Proof.
  intros Hne. induction d as [|[k0 v0] d IH]; simpl.
  - destruct (eq_dec k' k); congruence.
  - destruct (eq_dec k k0) as [Heq|Hne0]; simpl.
    + destruct (eq_dec k' k0); congruence.
    + destruct (eq_dec k' k0); congruence.
Qed.

Lemma get_default_set_same k v default d :
  Dict.get_default k default (Dict.set k v d) = v.
Proof. unfold Dict.get_default. now rewrite get_set_same. Qed.

Lemma get_default_set_other k k' v default d :
  k <> k' ->
  Dict.get_default k' default (Dict.set k v d) = Dict.get_default k' default d.
Proof. intros Hne. unfold Dict.get_default. now rewrite get_set_other. Qed.

Lemma mem_set_same k v d : Dict.mem k (Dict.set k v d) = true.
Proof. unfold Dict.mem. now rewrite get_set_same. Qed.

Lemma mem_set_other k k' v d :
  k <> k' -> Dict.mem k' (Dict.set k v d) = Dict.mem k' d.
Proof. intros Hne. unfold Dict.mem. now rewrite get_set_other. Qed.

(** Assigning to an absent key appends the entry. *)
Lemma set_fresh k v d :
  Dict.mem k d = false -> Dict.set k v d = d ++ [(k, v)].
Proof.
  unfold Dict.mem.
  induction d as [|[k' v'] d IH]; simpl; intros Hm; [reflexivity|].
  destruct (eq_dec k k'); [discriminate|].
  now rewrite IH.
Qed.

Lemma keys_set_present k v d :
  Dict.mem k d = true -> Dict.keys (Dict.set k v d) = Dict.keys d.
Proof.
  unfold Dict.mem, Dict.keys.
  induction d as [|[k' v'] d IH]; simpl; intros Hm; [discriminate|].
  destruct (eq_dec k k'); simpl; [reflexivity|].
  now rewrite IH.
Qed.

Lemma get_del_same k d : Dict.get k (Dict.del k d) = None.
Proof.
  unfold Dict.del.
  induction d as [|[k' v'] d IH]; simpl; [reflexivity|].
  destruct (eq_dec k k') as [Heq|Hne]; simpl; [assumption|].
  destruct (eq_dec k k'); [contradiction | assumption].
Qed.

Lemma mem_del_same k d : Dict.mem k (Dict.del k d) = false.
Proof. unfold Dict.mem. now rewrite get_del_same. Qed.

Lemma get_del_other k k' d :
  k <> k' -> Dict.get k' (Dict.del k d) = Dict.get k' d.
Proof.
  intros Hne. unfold Dict.del.
  induction d as [|[k0 v0] d IH]; simpl; [reflexivity|].
  destruct (eq_dec k k0) as [Heq|Hne0]; simpl.
  - destruct (eq_dec k' k0); [congruence | assumption].
  - destruct (eq_dec k' k0); [reflexivity | assumption].
Qed.

Lemma mem_del_other k k' d :
  k <> k' -> Dict.mem k' (Dict.del k d) = Dict.mem k' d.
Proof. intros Hne. unfold Dict.mem. now rewrite get_del_other. Qed.

Lemma unique_keys_set k v d : unique_keys d -> unique_keys (Dict.set k v d).
Proof.
  unfold unique_keys. intros Hd.
  destruct (Dict.mem k d) eqn:Hm.
  - change (map fst (Dict.set k v d)) with (Dict.keys (Dict.set k v d)).
    now rewrite keys_set_present.
  - rewrite set_fresh by assumption.
    rewrite map_app. simpl.
    apply mem_false_iff in Hm. unfold Dict.keys in Hm.
    assert (Hperm : NoDup (k :: map fst d)) by (constructor; assumption).
    revert Hperm. apply Permutation_NoDup.
    apply Permutation_cons_append.
Qed.

Lemma unique_keys_del k d : unique_keys d -> unique_keys (Dict.del k d).
Proof.
  unfold unique_keys, Dict.del.
  induction d as [|[k' v'] d IH]; simpl; intros Hd; [constructor|].
  inversion Hd as [|? ? Hnotin Hrest]; subst.
  destruct (eq_dec k k'); simpl; [auto|].
  constructor; [|auto].
  intros Hin. apply Hnotin.
  apply in_map_iff in Hin. destruct Hin as [kv [Hfst Hin]].
  apply filter_In in Hin. apply in_map_iff. exists kv. tauto.
Qed.

End DictFacts.

(** ** Strings *)

Lemma str_is_empty_true (s : string) : str_is_empty s = true <-> s = EmptyString.
Proof. destruct s; simpl; split; congruence. Qed.

Lemma str_is_empty_false (s : string) :
  str_is_empty s = false <-> s <> EmptyString.
Proof. destruct s; simpl; split; congruence. Qed.

(** ** Status classification *)

(** C3. [calc_status] returns info when the limit is not positive; otherwise
    safe below a ratio of 0.50, alert from 0.50 and below 0.80, warning from
    0.80 and below 1.00, danger from 1.00 on; and it yields the boundary table
    (49,100) safe, (50,100) alert, (79.99,100) alert, (80,100) warning,
    (99.99,100) warning, (100,100) danger, (0,0) info. *)
Theorem calc_status_buckets (spent limit : Q) :
  (limit <= 0 -> calc_status spent limit = Info) /\
  (0 < limit -> spent / limit < 0.50 -> calc_status spent limit = Safe) /\
  (0 < limit -> 0.50 <= spent / limit -> spent / limit < 0.80 ->
   calc_status spent limit = Alert) /\
  (0 < limit -> 0.80 <= spent / limit -> spent / limit < 1.00 ->
   calc_status spent limit = Warning) /\
  (0 < limit -> 1.00 <= spent / limit -> calc_status spent limit = Danger) /\
  (calc_status 49 100 = Safe /\ calc_status 50 100 = Alert /\
   calc_status 79.99 100 = Alert /\ calc_status 80 100 = Warning /\
   calc_status 99.99 100 = Warning /\ calc_status 100 100 = Danger /\
   calc_status 0 0 = Info).
Proof.
  unfold calc_status. cbv zeta.
  repeat match goal with |- _ /\ _ => split end;
    try (vm_compute; reflexivity).
  - intros Hl. now rewrite (proj2 (Qleb_true _ _) Hl).
  - intros Hl Hr. rewrite (proj2 (Qleb_false _ _) Hl).
    now rewrite (proj2 (Qltb_true _ _) Hr).
  - intros Hl Hlo Hhi. rewrite (proj2 (Qleb_false _ _) Hl).
    rewrite (proj2 (Qltb_false _ _) Hlo).
    now rewrite (proj2 (Qltb_true _ _) Hhi).
  - intros Hl Hlo Hhi. rewrite (proj2 (Qleb_false _ _) Hl).
    assert (H50 : 0.50 <= spent / limit)
      by (apply Qle_trans with 0.80; [vm_compute; discriminate | exact Hlo]).
    rewrite (proj2 (Qltb_false _ _) H50).
    rewrite (proj2 (Qltb_false _ _) Hlo).
    now rewrite (proj2 (Qltb_true _ _) Hhi).
  - intros Hl Hlo. rewrite (proj2 (Qleb_false _ _) Hl).
    assert (H80 : 0.80 <= spent / limit)
      by (apply Qle_trans with 1.00; [vm_compute; discriminate | exact Hlo]).
    assert (H50 : 0.50 <= spent / limit)
      by (apply Qle_trans with 1.00; [vm_compute; discriminate | exact Hlo]).
    rewrite (proj2 (Qltb_false _ _) H50).
    rewrite (proj2 (Qltb_false _ _) H80).
    now rewrite (proj2 (Qltb_false _ _) Hlo).
Qed.

(** The ratio 0.50 itself is classified alert. *)
Lemma calc_status_buckets_witness : calc_status 50 100 = Alert.
Proof.
  apply (proj1 (proj2 (proj2 (calc_status_buckets 50 100)))).
  - reflexivity.
  - vm_compute. discriminate.
  - reflexivity.
Defined.

(** The five buckets cover every input: one of the five cases always
    applies. *)
Lemma calc_status_cases (spent limit : Q) :
  limit <= 0 \/
  (0 < limit /\
   (spent / limit < 0.50 \/
    (0.50 <= spent / limit /\ spent / limit < 0.80) \/
    (0.80 <= spent / limit /\ spent / limit < 1.00) \/
    1.00 <= spent / limit)).
Proof.
  destruct (Qlt_le_dec 0 limit) as [Hpos|Hle]; [right; split; [assumption|] | now left].
  destruct (Qlt_le_dec (spent / limit) 0.50); [now left|].
  destruct (Qlt_le_dec (spent / limit) 0.80); [right; left; now split|].
  destruct (Qlt_le_dec (spent / limit) 1.00); [right; right; left; now split|].
  now right; right; right.
Qed.

(** ** [BudgetMonth.set_budget] *)

(** C10. [set_budget] changes only the budget field: the month key, the
    category map, the expense list and the next-expense-id counter are those
    of the month before. *)
Theorem set_budget_frame (m : BudgetMonth.t) (amount : Q) :
  BudgetMonth.budget (BudgetMonth.set_budget amount m) = Some amount /\
  BudgetMonth.categories (BudgetMonth.set_budget amount m)
    = BudgetMonth.categories m /\
  BudgetMonth.expenses (BudgetMonth.set_budget amount m)
    = BudgetMonth.expenses m /\
  BudgetMonth._next_expense_id (BudgetMonth.set_budget amount m)
    = BudgetMonth._next_expense_id m /\
  BudgetMonth.month_key (BudgetMonth.set_budget amount m)
    = BudgetMonth.month_key m.
Proof. unfold BudgetMonth.set_budget. simpl. repeat split. Qed.

(** ** [BudgetMonth.add_category] *)

Lemma add_category_true (m : BudgetMonth.t) (cat : Category.t) :
  fst (BudgetMonth.add_category cat m) = true <->
  strip (Category.name cat) <> EmptyString /\
  Dict.mem (strip (Category.name cat)) (BudgetMonth.categories m) = false.
Proof.
  unfold BudgetMonth.add_category. cbv zeta.
  destruct (str_is_empty (strip (Category.name cat))) eqn:He;
    destruct (Dict.mem (strip (Category.name cat)) (BudgetMonth.categories m))
      eqn:Hm; simpl.
  - apply str_is_empty_true in He. split; [discriminate | tauto].
  - apply str_is_empty_true in He. split; [discriminate | tauto].
  - split; [discriminate | intros [_ ?]; discriminate].
  - apply str_is_empty_false in He. tauto.
Qed.

Lemma add_category_inserts (m : BudgetMonth.t) (cat : Category.t) :
  fst (BudgetMonth.add_category cat m) = true ->
  snd (BudgetMonth.add_category cat m)
  = BudgetMonth.with_categories
      (BudgetMonth.categories m ++ [(strip (Category.name cat), cat)]) m.
Proof.
  intros Hok. pose proof (proj1 (add_category_true m cat) Hok) as [_ Hm].
  revert Hok. unfold BudgetMonth.add_category. cbv zeta.
  destruct (str_is_empty (strip (Category.name cat))
            || Dict.mem (strip (Category.name cat)) (BudgetMonth.categories m));
    simpl; [discriminate|].
  intros _. now rewrite set_fresh.
Qed.

Lemma add_category_rejects (m : BudgetMonth.t) (cat : Category.t) :
  fst (BudgetMonth.add_category cat m) = false ->
  snd (BudgetMonth.add_category cat m) = m.
Proof.
  unfold BudgetMonth.add_category. cbv zeta.
  destruct (str_is_empty (strip (Category.name cat))
            || Dict.mem (strip (Category.name cat)) (BudgetMonth.categories m));
    simpl; [reflexivity | discriminate].
Qed.

(** C6. [add_category] returns true exactly when the candidate's trimmed name
    is non-empty and not yet a key of the category map; it then appends the
    entry under that name and touches nothing else; when it returns false the
    month is unchanged. *)
Theorem add_category_iff (m : BudgetMonth.t) (cat : Category.t) :
  (fst (BudgetMonth.add_category cat m) = true <->
   strip (Category.name cat) <> EmptyString /\
   ~ In (strip (Category.name cat)) (Dict.keys (BudgetMonth.categories m))) /\
  (fst (BudgetMonth.add_category cat m) = true ->
   Dict.get (strip (Category.name cat))
     (BudgetMonth.categories (snd (BudgetMonth.add_category cat m))) = Some cat /\
   snd (BudgetMonth.add_category cat m)
   = BudgetMonth.with_categories
       (BudgetMonth.categories m ++ [(strip (Category.name cat), cat)]) m) /\
  (fst (BudgetMonth.add_category cat m) = false ->
   snd (BudgetMonth.add_category cat m) = m).
Proof.
  split; [|split].
  - rewrite add_category_true. now rewrite mem_false_iff.
  - intros Hok. split; [|now apply add_category_inserts].
    pose proof (proj1 (add_category_true m cat) Hok) as [_ Hm].
    rewrite add_category_inserts by assumption. simpl.
    rewrite <- set_fresh by assumption. apply get_set_same.
  - apply add_category_rejects.
Qed.

Lemma add_category_iff_witness :
  fst (BudgetMonth.add_category (Category.mk "Food" "fixed" 400)
         (BudgetMonth.init "2024-03")) = true.
Proof.
  apply (proj1 (add_category_iff (BudgetMonth.init "2024-03")
                  (Category.mk "Food" "fixed" 400))).
  split.
  - vm_compute. discriminate.
  - vm_compute. tauto.
Defined.

(** C9. When the candidate's name carries surrounding white space and trims
    to a new non-empty name, [add_category] files the entry under the trimmed
    name, and the stored category still bears the untrimmed name: the key
    differs from the name attribute of the object it maps to. *)
Theorem add_category_key_is_trimmed (m : BudgetMonth.t) (cat : Category.t) :
  Category.name cat <> strip (Category.name cat) ->
  strip (Category.name cat) <> EmptyString ->
  Dict.mem (strip (Category.name cat)) (BudgetMonth.categories m) = false ->
  fst (BudgetMonth.add_category cat m) = true /\
  exists stored,
    Dict.get (strip (Category.name cat))
      (BudgetMonth.categories (snd (BudgetMonth.add_category cat m)))
    = Some stored /\
    Category.name stored = Category.name cat /\
    Category.name stored <> strip (Category.name cat) /\
    Dict.keys (BudgetMonth.categories (snd (BudgetMonth.add_category cat m)))
    = Dict.keys (BudgetMonth.categories m) ++ [strip (Category.name cat)].
Proof.
  intros Hws Hne Hm.
  assert (Hok : fst (BudgetMonth.add_category cat m) = true)
    by (apply add_category_true; now split).
  split; [assumption|].
  exists cat. rewrite add_category_inserts by assumption. simpl.
  repeat split; try assumption.
  - rewrite <- set_fresh by assumption. apply get_set_same.
  - unfold Dict.keys. now rewrite map_app.
Qed.

Lemma add_category_key_is_trimmed_witness :
  exists stored,
    Dict.get "Food"%string
      (BudgetMonth.categories
         (snd (BudgetMonth.add_category (Category.mk " Food " "fixed" 400)
                 (BudgetMonth.init "2024-03"))))
    = Some stored /\
    Category.name stored = " Food "%string.
Proof.
  destruct (add_category_key_is_trimmed (BudgetMonth.init "2024-03")
              (Category.mk " Food " "fixed" 400))
    as [_ [stored [Hget [Hname _]]]].
  - vm_compute. discriminate.
  - vm_compute. discriminate.
  - reflexivity.
  - exists stored. split; [exact Hget | exact Hname].
Defined.

(** ** [BudgetMonth.delete_category] *)

Lemma total_expenses_reassign (name : string) (es : list Expense.t) (acc : Q) :
  fold_left (fun a e => a + Expense.amount e) (BudgetMonth.reassign name es) acc
  = fold_left (fun a e => a + Expense.amount e) es acc.
Proof.
  revert acc. induction es as [|e es IH]; intros acc; simpl; [reflexivity|].
  rewrite IH. destruct (String.eqb (Expense.category e) name); reflexivity.
Qed.

Lemma reassign_clears (name : string) (es : list Expense.t) :
  name <> "Other"%string ->
  existsb (fun e => String.eqb (Expense.category e) name)
    (BudgetMonth.reassign name es) = false.
Proof.
  intros Hne. unfold BudgetMonth.reassign.
  induction es as [|e es IH]; cbn [map existsb]; [reflexivity|].
  rewrite IH, orb_false_r.
  destruct (String.eqb (Expense.category e) name) eqn:E; [|assumption].
  cbn [Expense.set_category Expense.category].
  apply String.eqb_neq. congruence.
Qed.

(** X2. Deleting any category but "Other" with [move_to_other] does what the
    migration promises: "Other" is there afterwards, the deleted name is
    gone, its expenses moved, the total is untouched. *)
Lemma delete_category_moves (m : BudgetMonth.t) (name : string) :
  name <> "Other"%string ->
  Dict.mem name (BudgetMonth.categories m) = true ->
  BudgetMonth.category_has_expenses name m = true ->
  let r := BudgetMonth.delete_category name true m in
  fst r = (true, MsgDeleted name) /\
  Dict.mem "Other"%string (BudgetMonth.categories (snd r)) = true /\
  Dict.mem name (BudgetMonth.categories (snd r)) = false /\
  BudgetMonth.expenses (snd r) = BudgetMonth.reassign name (BudgetMonth.expenses m) /\
  BudgetMonth.total_expenses (snd r) = BudgetMonth.total_expenses m /\
  BudgetMonth.category_has_expenses name (snd r) = false /\
  (Dict.mem "Other"%string (BudgetMonth.categories m) = false ->
   Dict.get "Other"%string (BudgetMonth.categories (snd r))
   = Some (Category.mk "Other" "fixed" (inject_Z (10 ^ 18)))) /\
  (Dict.mem "Other"%string (BudgetMonth.categories m) = true ->
   Dict.get "Other"%string (BudgetMonth.categories (snd r))
   = Dict.get "Other"%string (BudgetMonth.categories m)).
Proof.
  intros Hne Hmem Hexp. unfold BudgetMonth.delete_category.
  rewrite Hmem, Hexp. simpl.
  repeat split.
  - rewrite mem_del_other by assumption.
    destruct (Dict.mem "Other"%string (BudgetMonth.categories m)) eqn:Ho; simpl.
    + assumption.
    + apply mem_set_same.
  - apply mem_del_same.
  - unfold BudgetMonth.total_expenses. simpl. apply total_expenses_reassign.
  - unfold BudgetMonth.category_has_expenses. simpl.
    now apply reassign_clears.
  - intros Ho. rewrite Ho. simpl.
    rewrite get_del_other by assumption. apply get_set_same.
  - intros Ho. rewrite Ho. simpl.
    now rewrite get_del_other.
Qed.

(** C1, at the category "Other" itself. In [other_month] the category
    "Other" is present and both expenses reference it;
    [delete_category("Other", True)] reports success and removes "Other",
    and the two expenses still reference the deleted name. *)
Theorem delete_category_other_orphans :
  Dict.mem "Other"%string (BudgetMonth.categories other_month) = true /\
  BudgetMonth.category_has_expenses "Other" other_month = true /\
  fst (BudgetMonth.delete_category "Other" true other_month)
  = (true, MsgDeleted "Other") /\
  Dict.mem "Other"%string
    (BudgetMonth.categories
       (snd (BudgetMonth.delete_category "Other" true other_month))) = false /\
  map Expense.category
    (BudgetMonth.expenses
       (snd (BudgetMonth.delete_category "Other" true other_month)))
  = ["Other"%string; "Other"%string].
Proof. vm_compute. repeat split. Qed.

(** ** The registry of months *)

Lemma get_month_present (app : BudgetTrackerApp.t) (key : string)
    (r : BudgetTrackerApp.ref) :
  Dict.get key (BudgetTrackerApp.months app) = Some r ->
  BudgetTrackerApp.get_month key app = (r, app).
Proof. intros Hg. unfold BudgetTrackerApp.get_month. now rewrite Hg. Qed.

Lemma get_month_absent (app : BudgetTrackerApp.t) (key : string) :
  Dict.get key (BudgetTrackerApp.months app) = None ->
  BudgetTrackerApp.get_month key app
  = (List.length (BudgetTrackerApp.objects app),
     BudgetTrackerApp.mk
       (BudgetTrackerApp.months app
        ++ [(key, List.length (BudgetTrackerApp.objects app))])
       (BudgetTrackerApp.objects app ++ [BudgetMonth.init key])).
Proof.
  intros Hg. unfold BudgetTrackerApp.get_month. rewrite Hg.
  rewrite set_fresh; [reflexivity|]. now apply mem_of_get_none.
Qed.

Lemma get_month_registers (app : BudgetTrackerApp.t) (key : string) :
  Dict.get key
    (BudgetTrackerApp.months (snd (BudgetTrackerApp.get_month key app)))
  = Some (fst (BudgetTrackerApp.get_month key app)).
Proof.
  unfold BudgetTrackerApp.get_month.
  destruct (Dict.get key (BudgetTrackerApp.months app)) eqn:Hg; simpl.
  - assumption.
  - apply get_set_same.
Qed.

Lemma get_month_refs_valid (app : BudgetTrackerApp.t) (key : string) :
  refs_valid app -> refs_valid (snd (BudgetTrackerApp.get_month key app)).
Proof.
  intros Hv. unfold BudgetTrackerApp.get_month.
  destruct (Dict.get key (BudgetTrackerApp.months app)) eqn:Hg; simpl;
    [assumption|].
  intros k r. simpl. rewrite length_app. simpl.
  destruct (string_dec key k) as [->|Hne].
  - rewrite get_set_same. intros [= <-]. lia.
  - rewrite get_set_other by assumption. intros Hk.
    specialize (Hv k r Hk). lia.
Qed.

(** C8. A second [get_month] with the same key returns the reference the
    first call returned and leaves the application, store included, as the
    first call left it: no second object is made. The key is registered to
    that reference, the reference names an object when the registry's
    references did, and a registry without repeated keys stays so. *)
Theorem get_month_idempotent (app : BudgetTrackerApp.t) (key : string) :
  let first := BudgetTrackerApp.get_month key app in
  let second := BudgetTrackerApp.get_month key (snd first) in
  fst second = fst first /\
  snd second = snd first /\
  Dict.get key (BudgetTrackerApp.months (snd first)) = Some (fst first) /\
  (refs_valid app ->
   exists m,
     BudgetTrackerApp.deref (fst first) (snd first) = Some m /\
     BudgetTrackerApp.deref (fst second) (snd second) = Some m) /\
  (unique_keys (BudgetTrackerApp.months app) ->
   unique_keys (BudgetTrackerApp.months (snd first))).
Proof.
  intros first second.
  assert (Hreg : Dict.get key (BudgetTrackerApp.months (snd first))
                 = Some (fst first)) by apply get_month_registers.
  assert (Hsecond : second = (fst first, snd first))
    by (apply get_month_present; exact Hreg).
  rewrite Hsecond. simpl.
  repeat split; try assumption.
  - intros Hv.
    pose proof (get_month_refs_valid key Hv) as Hv'.
    pose proof (Hv' key (fst first) Hreg) as Hlt.
    fold first in Hlt. unfold BudgetTrackerApp.deref.
    destruct (nth_error (BudgetTrackerApp.objects (snd first)) (fst first))
      as [m|] eqn:Hn.
    + exists m. now split.
    + apply nth_error_None in Hn. lia.
  - intros Hu. unfold first, BudgetTrackerApp.get_month.
    destruct (Dict.get key (BudgetTrackerApp.months app)); simpl;
      [assumption | now apply unique_keys_set].
Qed.

Lemma get_month_idempotent_witness :
  unique_keys
    (BudgetTrackerApp.months
       (snd (BudgetTrackerApp.get_month "2024-03" BudgetTrackerApp.init))).
Proof.
  apply (proj2 (proj2 (proj2 (proj2
           (get_month_idempotent BudgetTrackerApp.init "2024-03"))))).
  simpl. constructor.
Defined.

(** Every registry built from the empty one by [get_month] calls is free of
    repeated keys. *)
Lemma registry_unique_keys (keys : list string) :
  unique_keys
    (BudgetTrackerApp.months
       (fold_left (fun a k => snd (BudgetTrackerApp.get_month k a)) keys
          BudgetTrackerApp.init)).
Proof.
  assert (Hgen : forall a,
             unique_keys (BudgetTrackerApp.months a) ->
             unique_keys
               (BudgetTrackerApp.months
                  (fold_left (fun a k => snd (BudgetTrackerApp.get_month k a))
                     keys a))).
  { induction keys as [|k keys IH]; intros a Ha; simpl; [assumption|].
    apply IH. unfold BudgetTrackerApp.get_month.
    destruct (Dict.get k (BudgetTrackerApp.months a)); simpl;
      [assumption | now apply unique_keys_set]. }
  apply Hgen. constructor.
Qed.

(** ** Expense identifiers *)

Lemma zseq_In (i start : Z) (n : nat) :
  In i (zseq start n) <-> (start <= i < start + Z.of_nat n)%Z.
Proof.
  revert start. induction n as [|n IH]; intros start.
  - simpl. lia.
  - cbn [zseq In]. rewrite IH. lia.
Qed.

Lemma zseq_NoDup (start : Z) (n : nat) : NoDup (zseq start n).
Proof.
  revert start. induction n as [|n IH]; intros start; cbn [zseq].
  - constructor.
  - constructor; [|apply IH]. rewrite zseq_In. lia.
Qed.

(** [pop_first] takes exactly one element out of the list. *)
Lemma pop_first_split (id : Z) (es es' : list Expense.t) :
  BudgetMonth.pop_first id es = Some es' ->
  exists before e after,
    es = before ++ e :: after /\ es' = before ++ after /\
    Expense.expense_id e = id.
Proof.
  revert es'. induction es as [|e es IH]; intros es'; simpl; [discriminate|].
  destruct (Z.eqb (Expense.expense_id e) id) eqn:E.
  - intros [= <-]. exists [], e, es. apply Z.eqb_eq in E. now repeat split.
  - destruct (BudgetMonth.pop_first id es) as [rest|]; [|discriminate].
    intros [= <-]. destruct (IH rest eq_refl) as (before & x & after & -> & -> & Hid).
    exists (e :: before), x, after. now repeat split.
Qed.

Lemma delete_expense_by_id_inv (id : Z) (m : BudgetMonth.t) :
  ledger_inv m ->
  ledger_inv (snd (BudgetMonth.delete_expense_by_id id m)) /\
  BudgetMonth._next_expense_id (snd (BudgetMonth.delete_expense_by_id id m))
  = BudgetMonth._next_expense_id m /\
  incl (expense_ids (snd (BudgetMonth.delete_expense_by_id id m)))
       (expense_ids m).
Proof.
  intros [Hnd Hlt]. unfold BudgetMonth.delete_expense_by_id.
  destruct (BudgetMonth.pop_first id (BudgetMonth.expenses m)) as [es|] eqn:Hp;
    simpl.
  - destruct (pop_first_split _ _ Hp) as (before & e & after & Hes & -> & _).
    unfold ledger_inv, expense_ids in *. simpl. rewrite Hes in Hnd, Hlt.
    rewrite Hes. rewrite !map_app in *. simpl in *.
    repeat split.
    + now apply NoDup_remove_1 in Hnd.
    + apply Forall_app in Hlt. destruct Hlt as [Hb Ha].
      inversion Ha; subst. apply Forall_app. now split.
    + intros i Hi. apply in_app_iff in Hi. apply in_app_iff.
      destruct Hi; [now left | right; now right].
  - repeat split; try assumption. apply incl_refl.
Qed.

Lemma add_expense_inv (d : date) (amount : Q) (category description : string)
    (m : BudgetMonth.t) :
  ledger_inv m ->
  ledger_inv (snd (BudgetMonth.add_expense d amount category description m)).
Proof.
  intros [Hnd Hlt]. unfold ledger_inv, expense_ids, BudgetMonth.add_expense in *.
  simpl. rewrite map_app. simpl. split.
  - assert (Hperm : NoDup (BudgetMonth._next_expense_id m
                           :: map Expense.expense_id (BudgetMonth.expenses m))).
    { constructor; [|assumption]. intros Hin.
      rewrite Forall_forall in Hlt. specialize (Hlt _ Hin). lia. }
    revert Hperm. apply Permutation_NoDup. apply Permutation_cons_append.
  - apply Forall_app. split.
    + eapply Forall_impl; [|exact Hlt]. simpl. intros; lia.
    + constructor; [lia | constructor].
Qed.

(** The run of a ledger from any month that satisfies the invariant. *)
Lemma run_ledger_from (ops : list LedgerOp) (m : BudgetMonth.t) :
  ledger_inv m ->
  let n := List.length (filter is_add ops) in
  fst (run_ledger ops m) = zseq (BudgetMonth._next_expense_id m) n /\
  BudgetMonth._next_expense_id (snd (run_ledger ops m))
  = (BudgetMonth._next_expense_id m + Z.of_nat n)%Z /\
  ledger_inv (snd (run_ledger ops m)) /\
  (forall i, In i (expense_ids (snd (run_ledger ops m))) ->
             In i (expense_ids m) \/ In i (fst (run_ledger ops m))).
Proof.
  revert m. induction ops as [|op ops IH]; intros m Hinv.
  - simpl. split; [reflexivity|]. split; [lia|]. split; [assumption|].
    intros i Hi. now left.
  - destruct op as [d amount category description | id].
    + cbn [run_ledger filter is_add].
      pose proof (add_expense_inv d amount category description Hinv) as Hinv1.
      destruct (BudgetMonth.add_expense d amount category description m)
        as [e m1] eqn:Hadd.
      assert (He : Expense.expense_id e = BudgetMonth._next_expense_id m)
        by (unfold BudgetMonth.add_expense in Hadd; now inversion Hadd).
      assert (Hn1 : BudgetMonth._next_expense_id m1
                    = (BudgetMonth._next_expense_id m + 1)%Z)
        by (unfold BudgetMonth.add_expense in Hadd; now inversion Hadd).
      assert (Hids : expense_ids m1
                     = expense_ids m ++ [BudgetMonth._next_expense_id m]).
      { unfold BudgetMonth.add_expense in Hadd. inversion Hadd.
        unfold expense_ids. simpl. now rewrite map_app. }
      simpl in Hinv1. specialize (IH m1 Hinv1).
      destruct (run_ledger ops m1) as [ids m2]. simpl in IH |- *.
      destruct IH as (Hfst & Hnext & Hinv2 & Hsub).
      rewrite He, Hnext, Hn1. rewrite Hfst in Hsub |- *. rewrite Hn1 in Hsub |- *.
      split; [reflexivity|]. split; [lia|]. split; [exact Hinv2|].
      intros i Hi. destruct (Hsub i Hi) as [Hin|Hin].
      * rewrite Hids in Hin. apply in_app_iff in Hin.
        destruct Hin as [Hin|[<-|[]]]; [now left | right; now left].
      * right. now right.
    + cbn [run_ledger filter is_add].
      destruct (delete_expense_by_id_inv id Hinv) as (Hinv1 & Hn1 & Hincl).
      specialize (IH _ Hinv1). simpl in IH.
      destruct IH as (Hfst & Hnext & Hinv2 & Hsub).
      rewrite Hn1 in Hfst, Hnext.
      split; [exact Hfst|]. split; [exact Hnext|]. split; [exact Hinv2|].
      intros i Hi. destruct (Hsub i Hi) as [Hin|Hin]; [left | now right].
      now apply Hincl.
Qed.

(** C7. Over any sequence of [add_expense] and [delete_expense_by_id] calls
    on a fresh month, the ids handed out are 1, 2, 3, ... in order, hence
    never handed out twice whatever was deleted in between; the stored
    expenses bear pairwise distinct ids, each of them one that was handed
    out; and the counter stands one past the last id. *)
Theorem expense_ids_sequential (key : string) (ops : list LedgerOp) :
  let n := List.length (filter is_add ops) in
  let r := run_ledger ops (BudgetMonth.init key) in
  fst r = zseq 1 n /\
  NoDup (fst r) /\
  NoDup (expense_ids (snd r)) /\
  (forall i, In i (expense_ids (snd r)) -> In i (fst r)) /\
  BudgetMonth._next_expense_id (snd r) = (1 + Z.of_nat n)%Z.
Proof.
  intros n r.
  assert (Hinit : ledger_inv (BudgetMonth.init key))
    by (split; simpl; constructor).
  destruct (run_ledger_from ops Hinit) as (Hfst & Hnext & [Hnd _] & Hsub).
  fold r in Hfst, Hnext, Hnd, Hsub. fold n in Hfst, Hnext.
  simpl in Hfst, Hnext.
  repeat split; try assumption.
  - rewrite Hfst. apply zseq_NoDup.
  - intros i Hi. destruct (Hsub i Hi) as [[]|Hin]. exact Hin.
Qed.

Lemma expense_ids_sequential_witness :
  fst (run_ledger
         [OpAdd march_5 300 "Food" "a"; OpAdd march_5 250 "Food" "b";
          OpDelete 2; OpAdd march_5 10 "Food" "c"]
         (BudgetMonth.init "2024-03")) = [1; 2; 3]%Z.
Proof.
  exact (proj1 (expense_ids_sequential "2024-03"
                  [OpAdd march_5 300 "Food" "a"; OpAdd march_5 250 "Food" "b";
                   OpDelete 2; OpAdd march_5 10 "Food" "c"])).
Defined.

(** ** Spend totals and the status summary *)

Lemma total_by_category_from (name : string) (es : list Expense.t)
    (totals : dict string Q) :
  Dict.get_default name 0.0
    (fold_left
       (fun totals e =>
          Dict.set (Expense.category e)
            (Dict.get_default (Expense.category e) 0.0 totals + Expense.amount e)
            totals)
       es totals)
  = fold_left Qplus (amounts_of name es) (Dict.get_default name 0.0 totals).
Proof.
  revert totals. unfold amounts_of.
  induction es as [|e es IH]; intros totals; cbn [fold_left filter map];
    [reflexivity|].
  rewrite IH.
  destruct (String.eqb (Expense.category e) name) eqn:E.
  - apply String.eqb_eq in E. subst name.
    now rewrite get_default_set_same.
  - apply String.eqb_neq in E.
    now rewrite get_default_set_other.
Qed.

(** X10. The entry of [total_by_category] for a category is the sum of the
    amounts logged against it, added oldest first from [0.0]. *)
Lemma total_by_category_get (name : string) (m : BudgetMonth.t) :
  Dict.get_default name 0.0 (BudgetMonth.total_by_category m)
  = fold_left Qplus (amounts_of name (BudgetMonth.expenses m)) 0.0.
Proof.
  unfold BudgetMonth.total_by_category.
  now rewrite total_by_category_from.
Qed.

(** One [bump] adds one to the bucket of the status, if it has a bucket. *)
Lemma bump_buckets (st : Status) (a b c d : Z) :
  BudgetMonth.bump st [(Safe, a); (Alert, b); (Warning, c); (Danger, d)]
  = [(Safe, (a + (if Status_eqb st Safe then 1 else 0))%Z);
     (Alert, (b + (if Status_eqb st Alert then 1 else 0))%Z);
     (Warning, (c + (if Status_eqb st Warning then 1 else 0))%Z);
     (Danger, (d + (if Status_eqb st Danger then 1 else 0))%Z)].
Proof. destruct st; simpl; now rewrite ?Z.add_0_r. Qed.

(** Decides the comparisons of two explicit statuses in the goal. *)
Ltac eval_Status_eqb :=
  repeat match goal with
         | |- context [Status_eqb ?a ?b] =>
             let v := eval vm_compute in (Status_eqb a b) in
             change (Status_eqb a b) with v
         end.

Section Counting.
Context {A : Type} (status_of : A -> Status).

Lemma tally_cons (st : Status) (x : A) (items : list A) :
  tally status_of st (x :: items)
  = ((if Status_eqb (status_of x) st then 1 else 0) + tally status_of st items)%Z.
Proof.
  unfold tally. cbn [filter].
  destruct (Status_eqb (status_of x) st); cbn [List.length]; lia.
Qed.

(** Folding [bump] over the items adds, in each of the four buckets, the
    number of items bearing that status; items of status [Info] change
    nothing. *)
Lemma fold_bump (f : dict Status Z -> A -> dict Status Z)
    (Hf : forall counts x, f counts x = BudgetMonth.bump (status_of x) counts)
    (items : list A) (a b c d : Z) :
  fold_left f items [(Safe, a); (Alert, b); (Warning, c); (Danger, d)]
  = [(Safe, (a + tally status_of Safe items)%Z); (Alert, (b + tally status_of Alert items)%Z);
     (Warning, (c + tally status_of Warning items)%Z);
     (Danger, (d + tally status_of Danger items)%Z)].
Proof.
  revert a b c d. induction items as [|x items IH]; intros a b c d.
  - unfold tally. simpl. now rewrite !Z.add_0_r.
  - cbn [fold_left]. rewrite Hf, bump_buckets, IH, !tally_cons.
    now rewrite !Z.add_assoc.
Qed.

(** Every item bears exactly one of the five statuses. *)
Lemma tally_partition (items : list A) :
  (tally status_of Info items + tally status_of Safe items + tally status_of Alert items
   + tally status_of Warning items + tally status_of Danger items)%Z
  = Z.of_nat (List.length items).
Proof.
  induction items as [|x items IH]; [reflexivity|].
  rewrite !tally_cons. cbn [List.length]. rewrite Nat2Z.inj_succ, <- IH.
  destruct (status_of x); eval_Status_eqb; lia.
Qed.

End Counting.

Lemma count_status_tally (m : BudgetMonth.t) (b : Q) (st : Status) :
  count_status m b st = tally (category_status m b) st (BudgetMonth.categories m).
Proof. reflexivity. Qed.

(** C5, as the code has it. Without a budget all four counts are zero. With
    a budget [b], the result has exactly the buckets safe, alert, warning and
    danger, each holding the number of categories that [calc_status] puts in
    it (over the category's spend total and its limit under [b]); a category
    classified info is counted in no bucket, so the counts add up to the
    number of categories less those classified info. *)
Theorem status_summary_counts_spec (m : BudgetMonth.t) :
  (BudgetMonth.budget m = None ->
   BudgetMonth.status_summary_counts m
   = [(Safe, 0%Z); (Alert, 0%Z); (Warning, 0%Z); (Danger, 0%Z)]) /\
  (forall b, BudgetMonth.budget m = Some b ->
     BudgetMonth.status_summary_counts m
     = [(Safe, count_status m b Safe); (Alert, count_status m b Alert);
        (Warning, count_status m b Warning);
        (Danger, count_status m b Danger)] /\
     (counted (BudgetMonth.status_summary_counts m) + count_status m b Info)%Z
     = Z.of_nat (List.length (BudgetMonth.categories m))).
Proof.
  unfold BudgetMonth.status_summary_counts. split.
  - intros ->. reflexivity.
  - intros b ->. cbv zeta. unfold BudgetMonth.empty_counts.
    rewrite (fold_bump (category_status m b)).
    + rewrite !Z.add_0_l, !count_status_tally. split; [reflexivity|].
      rewrite <- (tally_partition (category_status m b)
                    (BudgetMonth.categories m)).
      unfold counted. simpl. lia.
    + intros counts [name cat]. reflexivity.
Qed.

Lemma status_summary_counts_spec_witness :
  BudgetMonth.status_summary_counts food_month
  = [(Safe, 0%Z); (Alert, 0%Z); (Warning, 0%Z); (Danger, 1%Z)].
Proof.
  destruct (proj2 (status_summary_counts_spec food_month) 1000) as [Hc _].
  - reflexivity.
  - rewrite Hc. vm_compute. reflexivity.
Defined.

(** C5 as stated fails on [zero_cap_month]: the budget is set, the month has
    one category, [calc_status] classifies it info, and every count is zero,
    so the category is counted in no bucket. *)
Lemma status_summary_counts_omits_info :
  BudgetMonth.budget zero_cap_month = Some 100 /\
  map (category_status zero_cap_month 100)
    (BudgetMonth.categories zero_cap_month) = [Info] /\
  BudgetMonth.status_summary_counts zero_cap_month
  = [(Safe, 0%Z); (Alert, 0%Z); (Warning, 0%Z); (Danger, 0%Z)] /\
  counted (BudgetMonth.status_summary_counts zero_cap_month)
  <> Z.of_nat (List.length (BudgetMonth.categories zero_cap_month)).
Proof. vm_compute. repeat split. discriminate. Qed.

(** ** The allocation ceiling *)

(** C4, at the custom-setup form. The form checks a candidate against the
    budget typed in when "Add to List" is pressed, and "Finalize" saves
    whatever budget is typed in at that later moment. Under a typed budget
    of 8000 the form refuses a fixed category of 8001 and lists one of 8000;
    finalizing with the budget lowered to 1000 is accepted, and the month is
    then set up with a budget of 1000 and one category whose limit is 8000:
    the limits sum to 8000, above the budget plus 1e-9. *)
Theorem setup_finalize_stale_budget :
  let cur := fst (BudgetTrackerApp.get_month "2024-03" BudgetTrackerApp.init) in
  let app := snd (BudgetTrackerApp.get_month "2024-03" BudgetTrackerApp.init) in
  let listed := UI.setup_add_to_list 8000 "Rent" "fixed" 8000 [] in
  let saved := UI.setup_finalize cur 1000 (snd listed) app in
  let month := BudgetTrackerApp.deref cur (fst (snd saved)) in
  UI.setup_add_to_list 8000 "Rent" "fixed" 8001 []
  = (ErrLimitsExceeded (8000 - 0), []) /\
  listed = (OkListed, [Category.mk "Rent" "fixed" 8000]) /\
  fst saved = OkSetupSaved /\
  option_map BudgetMonth.budget month = Some (Some 1000) /\
  option_map BudgetMonth.is_setup month = Some true /\
  option_map BudgetMonth.categories month
  = Some [("Rent"%string, Category.mk "Rent" "fixed" 8000)] /\
  option_map (fun m => allocation m 1000) month = Some (0 + 8000) /\
  ~ 0 + 8000 <= 1000 + 1e-9.
Proof. vm_compute. repeat split. intros H. now apply H. Qed.

Lemma list_set_nth_error {A : Type} (l : list A) (n : nat) (x y : A) :
  nth_error l n = Some y ->
  nth_error (BudgetTrackerApp.list_set l n x) n = Some x.
Proof.
  revert n. induction l as [|z l IH]; intros [|n]; simpl; try discriminate.
  - reflexivity.
  - apply IH.
Qed.

Lemma deref_store (r : BudgetTrackerApp.ref) (m m' : BudgetMonth.t)
    (app : BudgetTrackerApp.t) :
  BudgetTrackerApp.deref r app = Some m ->
  BudgetTrackerApp.deref r (BudgetTrackerApp.store r m' app) = Some m'.
Proof.
  unfold BudgetTrackerApp.deref, BudgetTrackerApp.store. simpl.
  apply list_set_nth_error.
Qed.

(** ** The spending ceiling *)

Lemma total_expenses_add (d : date) (amount : Q) (category description : string)
    (m : BudgetMonth.t) :
  BudgetMonth.total_expenses
    (snd (BudgetMonth.add_expense d amount category description m))
  = BudgetMonth.total_expenses m + amount.
Proof.
  unfold BudgetMonth.total_expenses, BudgetMonth.add_expense. simpl.
  now rewrite fold_left_app.
Qed.

(** X21. The add-expense form guards the ceiling: whenever it reports the expense
    added, the month the expense went to has a total of at most its budget
    plus 1e-9. *)
Lemma add_expense_submit_within_budget (cur : BudgetTrackerApp.ref)
    (exp_date : date) (exp_cat : string) (exp_amount : Q) (exp_desc : string)
    (app app' : BudgetTrackerApp.t) :
  UI.add_expense_submit cur exp_date exp_cat exp_amount exp_desc app
  = (OkExpenseAdded, app') ->
  exists m' b,
    BudgetTrackerApp.deref
      (fst (BudgetTrackerApp.get_month (month_key_from_date exp_date) app)) app'
    = Some m' /\
    BudgetMonth.budget m' = Some b /\
    BudgetMonth.total_expenses m' <= b + 1e-9.
Proof.
  unfold UI.add_expense_submit.
  destruct (BudgetTrackerApp.deref cur app) as [current_month|]; [|discriminate].
  destruct (negb (BudgetMonth.is_setup current_month)); [discriminate|].
  destruct (Qleb exp_amount 0); [discriminate|].
  destruct (BudgetTrackerApp.get_month (month_key_from_date exp_date) app)
    as [target app1].
  destruct (BudgetTrackerApp.deref target app1) as [tm|] eqn:Hd; [|discriminate].
  destruct (negb (BudgetMonth.is_setup tm)); [discriminate|].
  destruct (BudgetMonth.budget tm) as [b|] eqn:Hb; [|discriminate].
  cbv zeta.
  destruct (Qgtb (BudgetMonth.total_expenses tm + exp_amount) (b + 1e-9))
    eqn:Hchk; [discriminate|].
  apply Qgtb_false in Hchk.
  pose proof (total_expenses_add exp_date exp_amount exp_cat exp_desc tm) as Ht.
  destruct (BudgetMonth.add_expense exp_date exp_amount exp_cat exp_desc tm)
    as [e m'] eqn:Hadd.
  intros [= <-]. exists m', b. simpl in Ht |- *.
  split; [eapply deref_store; exact Hd|].
  split.
  - unfold BudgetMonth.add_expense in Hadd. inversion Hadd. exact Hb.
  - now rewrite Ht.
Qed.

(** C2, at the edit form. In [app_one_expense] the month 2024-03 has a budget
    of 1000 and one expense of 300, added through the guarded form. Saving
    the edit form with an amount of 5000 is accepted, the budget is still
    1000, and the logged total is then 5000, above the budget plus 1e-9. *)
Theorem edit_expense_exceeds_budget :
  option_map BudgetMonth.budget month_one_expense = Some (Some 1000) /\
  option_map BudgetMonth.total_expenses month_one_expense = Some 300 /\
  fst (UI.edit_expense_save (fst app_one_expense) 1 5000 "Expenses" "rent"
         (snd app_one_expense)) = OkExpenseUpdated /\
  option_map BudgetMonth.budget month_after_edit = Some (Some 1000) /\
  option_map BudgetMonth.total_expenses month_after_edit = Some 5000 /\
  ~ 5000 <= 1000 + 1e-9.
Proof. vm_compute. repeat split. intros H. now apply H. Qed.

(** ** The scenarios of the specification *)

Example strip_examples :
  strip "  Food " = "Food"%string /\ strip "   " = EmptyString /\
  strip "a b" = "a b"%string.
Proof. vm_compute. repeat split. Qed.

Example month_key_example : month_key_from_date march_5 = "2024-03"%string.
Proof. reflexivity. Qed.

(** Budget 1000 with "Food" fixed 400 and "Fun" 20 percent: 600 is
    allocated; "Extra" fixed 500 is refused with 400 quoted as available;
    "Extra" fixed 400 is accepted and the allocation reaches the budget. *)
Example scenario_allocation :
  let '(cur, app) := app_food_fun in
  match allocation_at cur 1000 app with
  | Some a => a == 600
  | None => False
  end /\
  match fst (UI.settings_add_category cur "Extra" "fixed" 500 app) with
  | ErrLimitsExceeded available => available == 400
  | _ => False
  end /\
  fst (UI.settings_add_category cur "Extra" "fixed" 400 app) = OkCategoryAdded /\
  match allocation_at cur 1000
          (snd (UI.settings_add_category cur "Extra" "fixed" 400 app)) with
  | Some a => a == 1000
  | None => False
  end.
Proof. vm_compute. repeat split. Qed.

(** Budget 1000, "Food" capped at 500, expenses of 300 and 250: deleting
    "Food" with the move moves both expenses to "Other" and the total stays
    at 550. *)
Example scenario_delete_food :
  BudgetMonth.total_expenses food_month == 550 /\
  fst (BudgetMonth.delete_category "Food" true food_month)
  = (true, MsgDeleted "Food") /\
  map Expense.category (BudgetMonth.expenses other_month)
  = ["Other"%string; "Other"%string] /\
  Dict.keys (BudgetMonth.categories other_month) = ["Other"%string] /\
  BudgetMonth.total_expenses other_month == 550.
Proof. vm_compute. repeat split. Qed.

(** An amount of zero never reaches [add_expense]: the form refuses it. *)
Example scenario_zero_amount :
  UI.add_expense_submit (fst app_one_expense) march_5 "Expenses" 0 ""
    (snd app_one_expense)
  = (ErrAmountNotPositive, snd app_one_expense).
Proof. reflexivity. Qed.

(** * Further properties of the code *)

(** Projects the fields out of a month that was just rebuilt. *)
Ltac month_fields :=
  unfold BudgetMonth.with_categories, BudgetMonth.with_expenses;
  cbn [fst snd BudgetMonth.expenses BudgetMonth.categories BudgetMonth.budget
       BudgetMonth._next_expense_id BudgetMonth.month_key].

(** ** [BudgetMonth.delete_category], all branches *)

Lemma has_expenses_false (name : string) (m : BudgetMonth.t) (e : Expense.t) :
  BudgetMonth.category_has_expenses name m = false ->
  In e (BudgetMonth.expenses m) -> Expense.category e <> name.
Proof.
  unfold BudgetMonth.category_has_expenses. intros Hex Hin Heq.
  assert (Ht : existsb (fun e => String.eqb (Expense.category e) name)
                 (BudgetMonth.expenses m) = true).
  { apply existsb_exists. exists e. split; [assumption|].
    now apply String.eqb_eq. }
  congruence.
Qed.

(** X1. [delete_category] refuses exactly when the name is not a category, or
    when it has expenses and the move was not asked for. A refusal changes
    nothing and says which of the two it was; a success always removes the
    name from the category map. *)
Theorem delete_category_refusals (m : BudgetMonth.t) (name : string)
    (move_to_other : bool) :
  let r := BudgetMonth.delete_category name move_to_other m in
  (fst (fst r) = false <->
   Dict.mem name (BudgetMonth.categories m) = false \/
   (BudgetMonth.category_has_expenses name m = true /\ move_to_other = false)) /\
  (fst (fst r) = false -> snd r = m) /\
  (Dict.mem name (BudgetMonth.categories m) = false ->
   snd (fst r) = MsgNotFound) /\
  (Dict.mem name (BudgetMonth.categories m) = true ->
   fst (fst r) = false -> snd (fst r) = MsgCancelled) /\
  (fst (fst r) = true ->
   snd (fst r) = MsgDeleted name /\
   Dict.mem name (BudgetMonth.categories (snd r)) = false).
Proof.
  unfold BudgetMonth.delete_category.
  destruct (Dict.mem name (BudgetMonth.categories m)) eqn:Hmem;
    destruct (BudgetMonth.category_has_expenses name m) eqn:Hexp;
    destruct move_to_other; cbn [negb andb fst snd];
    repeat match goal with |- _ /\ _ => split end;
    try tauto; try discriminate; try reflexivity;
    try (intros; discriminate);
    try (intros _; split; [reflexivity | apply mem_del_same]);
    try (split; [discriminate | intros [? | [? ?]]; discriminate]).
  all: split; [intros _; now left | reflexivity].
Qed.

Lemma delete_category_refusals_witness :
  snd (fst (BudgetMonth.delete_category "Food" false food_month))
  = MsgCancelled.
Proof.
  apply (proj1 (proj2 (proj2 (proj2
           (delete_category_refusals food_month "Food" false))))).
  - reflexivity.
  - reflexivity.
Defined.

(** Deleting a category that no expense references removes just that entry:
    whatever the move flag says, no "Other" category is made, the expenses
    are untouched and every other entry of the map stays as it was. *)
Theorem delete_category_unused (m : BudgetMonth.t) (name : string)
    (move_to_other : bool) :
  Dict.mem name (BudgetMonth.categories m) = true ->
  BudgetMonth.category_has_expenses name m = false ->
  BudgetMonth.delete_category name move_to_other m
  = ((true, MsgDeleted name),
     BudgetMonth.with_categories (Dict.del name (BudgetMonth.categories m)) m) /\
  forall k, k <> name ->
    Dict.get k (Dict.del name (BudgetMonth.categories m))
    = Dict.get k (BudgetMonth.categories m).
Proof.
  intros Hmem Hexp. unfold BudgetMonth.delete_category.
  rewrite Hmem, Hexp. simpl. split; [reflexivity|].
  intros k Hk. apply get_del_other. congruence.
Qed.

Lemma delete_category_unused_witness :
  Dict.keys
    (BudgetMonth.categories
       (snd (BudgetMonth.delete_category "Misc" true zero_cap_month)))
  = [].
Proof.
  rewrite (proj1 (delete_category_unused zero_cap_month "Misc" true
                    eq_refl eq_refl)).
  reflexivity.
Defined.

(** X3. Whatever its arguments and outcome, [delete_category] leaves the ledger
    alone but for the category field of the moved expenses: ids, dates,
    amounts and descriptions, their order, the total, the budget and the id
    counter are those of before. *)
Theorem delete_category_keeps_ledger (m : BudgetMonth.t) (name : string)
    (move_to_other : bool) :
  let m' := snd (BudgetMonth.delete_category name move_to_other m) in
  map Expense.expense_id (BudgetMonth.expenses m')
  = map Expense.expense_id (BudgetMonth.expenses m) /\
  map Expense.amount (BudgetMonth.expenses m')
  = map Expense.amount (BudgetMonth.expenses m) /\
  map Expense.d (BudgetMonth.expenses m')
  = map Expense.d (BudgetMonth.expenses m) /\
  map Expense.description (BudgetMonth.expenses m')
  = map Expense.description (BudgetMonth.expenses m) /\
  BudgetMonth.total_expenses m' = BudgetMonth.total_expenses m /\
  BudgetMonth.budget m' = BudgetMonth.budget m /\
  BudgetMonth._next_expense_id m' = BudgetMonth._next_expense_id m.
Proof.
  assert (Hre : forall (B : Type) (f : Expense.t -> B),
             (forall c e, f (Expense.set_category c e) = f e) ->
             map f (BudgetMonth.reassign name (BudgetMonth.expenses m))
             = map f (BudgetMonth.expenses m)).
  { intros B f Hf. unfold BudgetMonth.reassign. rewrite map_map.
    apply map_ext. intros e.
    destruct (String.eqb (Expense.category e) name); [apply Hf | reflexivity]. }
  unfold BudgetMonth.delete_category.
  destruct (negb (Dict.mem name (BudgetMonth.categories m)));
    [cbn [snd]; repeat split|].
  destruct (BudgetMonth.category_has_expenses name m); cbn [andb];
    [|cbn [snd]; repeat split].
  destruct (negb move_to_other); cbn [snd]; [repeat split|].
  unfold BudgetMonth.total_expenses. month_fields.
  rewrite !Hre by reflexivity. rewrite total_expenses_reassign.
  repeat split.
Qed.

(** X4. If every expense referenced a category before, every expense does so
    after [delete_category], for every name but "Other". *)
Theorem delete_category_keeps_references (m : BudgetMonth.t) (name : string)
    (move_to_other : bool) :
  name <> "Other"%string ->
  references_ok m ->
  references_ok (snd (BudgetMonth.delete_category name move_to_other m)).
Proof.
  intros Hne Hok. unfold BudgetMonth.delete_category.
  destruct (negb (Dict.mem name (BudgetMonth.categories m)));
    [exact Hok|].
  destruct (BudgetMonth.category_has_expenses name m) eqn:Hexp; cbn [andb].
  - destruct (negb move_to_other); [exact Hok|].
    unfold references_ok. month_fields. intros e' Hin.
    unfold BudgetMonth.reassign in Hin. apply in_map_iff in Hin.
    destruct Hin as [e [He Hin]].
    assert (Hother : Dict.mem "Other"%string
                       (if negb (Dict.mem "Other"%string (BudgetMonth.categories m))
                        then Dict.set "Other"%string
                               (Category.mk "Other" "fixed" (inject_Z (10 ^ 18)))
                               (BudgetMonth.categories m)
                        else BudgetMonth.categories m) = true).
    { destruct (Dict.mem "Other"%string (BudgetMonth.categories m)) eqn:Ho;
        cbn [negb]; [assumption | apply mem_set_same]. }
    destruct (String.eqb (Expense.category e) name) eqn:E; subst e'.
    + cbn [Expense.set_category Expense.category].
      rewrite mem_del_other by assumption. exact Hother.
    + apply String.eqb_neq in E.
      rewrite mem_del_other by congruence.
      specialize (Hok e Hin).
      destruct (Dict.mem "Other"%string (BudgetMonth.categories m)) eqn:Ho;
        cbn [negb]; [assumption|].
      destruct (string_dec "Other" (Expense.category e)) as [Heq|Hdiff].
      * rewrite <- Heq. apply mem_set_same.
      * now rewrite mem_set_other.
  - unfold references_ok. month_fields. intros e Hin.
    rewrite mem_del_other; [now apply Hok|].
    intros Heq. apply (@has_expenses_false name m e Hexp Hin). now symmetry.
Qed.

Lemma delete_category_keeps_references_witness :
  references_ok (snd (BudgetMonth.delete_category "Food" true food_month)).
Proof.
  apply delete_category_keeps_references.
  - discriminate.
  - intros e [<-|[<-|[]]]; reflexivity.
Defined.

(** [delete_category] touches no entry of the category map but the one
    deleted and, when it has to make it, "Other". *)
Theorem delete_category_keeps_others (m : BudgetMonth.t) (name : string)
    (move_to_other : bool) (k : string) :
  k <> name -> k <> "Other"%string ->
  Dict.get k
    (BudgetMonth.categories
       (snd (BudgetMonth.delete_category name move_to_other m)))
  = Dict.get k (BudgetMonth.categories m).
Proof.
  intros Hk Ho. unfold BudgetMonth.delete_category.
  destruct (negb (Dict.mem name (BudgetMonth.categories m))); [reflexivity|].
  destruct (BudgetMonth.category_has_expenses name m); cbn [andb].
  - destruct (negb move_to_other); [reflexivity|]. month_fields.
    rewrite get_del_other by congruence.
    destruct (negb (Dict.mem "Other"%string (BudgetMonth.categories m)));
      [|reflexivity].
    apply get_set_other. congruence.
  - month_fields. apply get_del_other. congruence.
Qed.

Lemma delete_category_keeps_others_witness :
  Dict.get "Expenses"%string
    (BudgetMonth.categories
       (snd (BudgetMonth.delete_category "Food" true food_month)))
  = None.
Proof.
  rewrite (delete_category_keeps_others food_month true
             (name := "Food") (k := "Expenses")).
  - reflexivity.
  - discriminate.
  - discriminate.
Defined.

Lemma delete_category_moves_witness :
  BudgetMonth.category_has_expenses "Food"
    (snd (BudgetMonth.delete_category "Food" true food_month)) = false.
Proof.
  assert (Hne : "Food"%string <> "Other"%string) by discriminate.
  exact (proj1 (proj2 (proj2 (proj2 (proj2 (proj2
           (@delete_category_moves food_month "Food" Hne eq_refl eq_refl))))))).
Defined.

(** ** Looking expenses up and deleting them *)

Lemma find_id_none (id : Z) (es : list Expense.t) :
  find (fun e => Z.eqb (Expense.expense_id e) id) es = None <->
  ~ In id (map Expense.expense_id es).
Proof.
  induction es as [|e es IH]; simpl.
  - tauto.
  - destruct (Z.eqb (Expense.expense_id e) id) eqn:E.
    + apply Z.eqb_eq in E. split; [discriminate | intros H; exfalso; auto].
    + apply Z.eqb_neq in E. rewrite IH. tauto.
Qed.

Lemma find_id_snoc (id : Z) (es : list Expense.t) (x : Expense.t) :
  find (fun e => Z.eqb (Expense.expense_id e) id) (es ++ [x])
  = match find (fun e => Z.eqb (Expense.expense_id e) id) es with
    | Some y => Some y
    | None => if Z.eqb (Expense.expense_id x) id then Some x else None
    end.
Proof.
  induction es as [|e es IH]; simpl; [reflexivity|].
  destruct (Z.eqb (Expense.expense_id e) id); [reflexivity | exact IH].
Qed.

(** X5. [get_expense_by_id] finds an expense of the month that bears the id, and
    finds none exactly when no expense bears it. *)
Theorem get_expense_by_id_spec (m : BudgetMonth.t) (id : Z) :
  (forall e, BudgetMonth.get_expense_by_id id m = Some e ->
             In e (BudgetMonth.expenses m) /\ Expense.expense_id e = id) /\
  (BudgetMonth.get_expense_by_id id m = None <-> ~ In id (expense_ids m)).
Proof.
  unfold BudgetMonth.get_expense_by_id, expense_ids. split.
  - intros e He. apply find_some in He. destruct He as [Hin Hid].
    split; [assumption | now apply Z.eqb_eq].
  - apply find_id_none.
Qed.

Lemma get_expense_by_id_spec_witness :
  BudgetMonth.get_expense_by_id 7 food_month = None.
Proof.
  apply (proj2 (get_expense_by_id_spec food_month 7)).
  simpl. intros [H|[H|[]]]; discriminate.
Defined.

Lemma pop_first_some_iff (id : Z) (es : list Expense.t) :
  BudgetMonth.pop_first id es <> None <-> In id (map Expense.expense_id es).
Proof.
  induction es as [|e es IH]; simpl.
  - tauto.
  - destruct (Z.eqb (Expense.expense_id e) id) eqn:E.
    + apply Z.eqb_eq in E. split; [auto | discriminate].
    + apply Z.eqb_neq in E.
      destruct (BudgetMonth.pop_first id es).
      * split; [intros _; right; apply IH; discriminate | discriminate].
      * split; [congruence | intros [?|Hin]; [congruence | now apply IH]].
Qed.

(** X6. [delete_expense_by_id] returns true exactly when an expense bears the
    id; a false return changes nothing; a true return shortens the expense
    list by one; categories, budget and id counter are never touched. *)
Theorem delete_expense_by_id_spec (m : BudgetMonth.t) (id : Z) :
  let r := BudgetMonth.delete_expense_by_id id m in
  (fst r = true <-> In id (expense_ids m)) /\
  (fst r = false -> snd r = m) /\
  (fst r = true ->
   S (List.length (BudgetMonth.expenses (snd r)))
   = List.length (BudgetMonth.expenses m)) /\
  BudgetMonth.categories (snd r) = BudgetMonth.categories m /\
  BudgetMonth.budget (snd r) = BudgetMonth.budget m /\
  BudgetMonth._next_expense_id (snd r) = BudgetMonth._next_expense_id m.
Proof.
  unfold BudgetMonth.delete_expense_by_id, expense_ids.
  pose proof (pop_first_some_iff id (BudgetMonth.expenses m)) as Hiff.
  destruct (BudgetMonth.pop_first id (BudgetMonth.expenses m)) as [es|] eqn:Hp;
    month_fields.
  - split; [split; [intros _; apply Hiff; discriminate | reflexivity]|].
    split; [discriminate|].
    split; [|repeat split].
    intros _. destruct (pop_first_split _ _ Hp) as (b & e & a & Hes & -> & _).
    rewrite Hes, !length_app. simpl. lia.
  - split; [split; [discriminate | intros Hin; apply Hiff in Hin; congruence]|].
    split; [reflexivity|].
    split; [discriminate | repeat split].
Qed.

Lemma delete_expense_by_id_spec_witness :
  snd (BudgetMonth.delete_expense_by_id 7 food_month) = food_month.
Proof.
  apply (proj1 (proj2 (delete_expense_by_id_spec food_month 7))).
  reflexivity.
Defined.

Lemma pop_first_unique (id : Z) (es : list Expense.t) :
  NoDup (map Expense.expense_id es) ->
  match BudgetMonth.pop_first id es with Some es' => es' | None => es end
  = filter (fun e => negb (Z.eqb (Expense.expense_id e) id)) es.
Proof.
  induction es as [|e es IH]; simpl; intros Hnd; [reflexivity|].
  inversion Hnd as [|? ? Hnotin Hrest]; subst.
  destruct (Z.eqb (Expense.expense_id e) id) eqn:E; simpl.
  - apply Z.eqb_eq in E. subst id. symmetry.
    apply forallb_filter_id. apply forallb_forall. intros x Hx.
    apply negb_true_iff. apply Z.eqb_neq. intros Heq. apply Hnotin.
    rewrite <- Heq. now apply in_map.
  - specialize (IH Hrest).
    destruct (BudgetMonth.pop_first id es); simpl; now rewrite <- IH.
Qed.

Lemma find_filter_other (id id' : Z) (es : list Expense.t) :
  id' <> id ->
  find (fun e => Z.eqb (Expense.expense_id e) id')
    (filter (fun e => negb (Z.eqb (Expense.expense_id e) id)) es)
  = find (fun e => Z.eqb (Expense.expense_id e) id') es.
Proof.
  intros Hne. induction es as [|e es IH]; simpl; [reflexivity|].
  destruct (Z.eqb (Expense.expense_id e) id) eqn:E; simpl.
  - apply Z.eqb_eq in E.
    destruct (Z.eqb (Expense.expense_id e) id') eqn:E'; [|exact IH].
    apply Z.eqb_eq in E'. congruence.
  - destruct (Z.eqb (Expense.expense_id e) id'); [reflexivity | exact IH].
Qed.

(** X7. In a month whose expense ids are pairwise distinct, deleting by id
    keeps exactly the expenses with another id, in their order; the id can
    then no longer be looked up, lookups of other ids answer as before, and
    a second deletion of the same id returns false. *)
Theorem delete_expense_by_id_unique (m : BudgetMonth.t) (id : Z) :
  NoDup (expense_ids m) ->
  let m' := snd (BudgetMonth.delete_expense_by_id id m) in
  BudgetMonth.expenses m'
  = filter (fun e => negb (Z.eqb (Expense.expense_id e) id))
      (BudgetMonth.expenses m) /\
  BudgetMonth.get_expense_by_id id m' = None /\
  (forall id', id' <> id ->
     BudgetMonth.get_expense_by_id id' m'
     = BudgetMonth.get_expense_by_id id' m) /\
  BudgetMonth.delete_expense_by_id id m' = (false, m').
Proof.
  intros Hnd m'.
  assert (Hes : BudgetMonth.expenses m'
                = filter (fun e => negb (Z.eqb (Expense.expense_id e) id))
                    (BudgetMonth.expenses m)).
  { rewrite <- (pop_first_unique id _ Hnd).
    unfold m', BudgetMonth.delete_expense_by_id.
    destruct (BudgetMonth.pop_first id (BudgetMonth.expenses m)); reflexivity. }
  assert (Hnone : ~ In id (expense_ids m')).
  { unfold expense_ids. rewrite Hes. intros Hin.
    apply in_map_iff in Hin. destruct Hin as [e [He Hin]].
    apply filter_In in Hin. destruct Hin as [_ Hneq].
    apply negb_true_iff in Hneq. apply Z.eqb_neq in Hneq. contradiction. }
  split; [exact Hes|]. split; [|split].
  - unfold BudgetMonth.get_expense_by_id. now apply find_id_none.
  - intros id' Hne. unfold BudgetMonth.get_expense_by_id. rewrite Hes.
    now apply find_filter_other.
  - unfold BudgetMonth.delete_expense_by_id.
    destruct (BudgetMonth.pop_first id (BudgetMonth.expenses m')) eqn:Hp;
      [|reflexivity].
    exfalso. apply Hnone. apply pop_first_some_iff. congruence.
Qed.

Lemma delete_expense_by_id_unique_witness :
  BudgetMonth.get_expense_by_id 1
    (snd (BudgetMonth.delete_expense_by_id 1 food_month)) = None.
Proof.
  assert (Hnd : NoDup (expense_ids food_month)).
  { simpl. repeat constructor; simpl; intuition discriminate. }
  exact (proj1 (proj2 (@delete_expense_by_id_unique food_month 1 Hnd))).
Defined.

Lemma pop_first_snoc (id : Z) (es : list Expense.t) (x : Expense.t) :
  ~ In id (map Expense.expense_id es) ->
  Expense.expense_id x = id ->
  BudgetMonth.pop_first id (es ++ [x]) = Some es.
Proof.
  intros Hnotin Hx. induction es as [|e es IH]; simpl.
  - rewrite Hx, Z.eqb_refl. reflexivity.
  - simpl in Hnotin.
    destruct (Z.eqb (Expense.expense_id e) id) eqn:E.
    + apply Z.eqb_eq in E. exfalso. apply Hnotin. now left.
    + rewrite IH; [reflexivity|]. intros Hin. apply Hnotin. now right.
Qed.

(** X8. In a month that satisfies the ledger invariant, deleting the expense
    that [add_expense] has just returned succeeds and gives back the expense
    list of before, and with it the same total; categories and budget are
    untouched, and the id counter stays advanced by one. *)
Theorem add_then_delete_expense (m : BudgetMonth.t) (d : date) (amount : Q)
    (category description : string) :
  ledger_inv m ->
  let added := BudgetMonth.add_expense d amount category description m in
  let deleted :=
    BudgetMonth.delete_expense_by_id (Expense.expense_id (fst added))
      (snd added) in
  fst deleted = true /\
  BudgetMonth.expenses (snd deleted) = BudgetMonth.expenses m /\
  BudgetMonth.total_expenses (snd deleted) = BudgetMonth.total_expenses m /\
  BudgetMonth.categories (snd deleted) = BudgetMonth.categories m /\
  BudgetMonth.budget (snd deleted) = BudgetMonth.budget m /\
  BudgetMonth._next_expense_id (snd deleted)
  = (BudgetMonth._next_expense_id m + 1)%Z.
Proof.
  intros [_ Hlt]. unfold BudgetMonth.add_expense.
  cbn [fst snd Expense.expense_id].
  unfold BudgetMonth.delete_expense_by_id. month_fields.
  rewrite pop_first_snoc.
  - unfold BudgetMonth.total_expenses. month_fields. now repeat split.
  - intros Hin. unfold expense_ids in Hlt.
    rewrite Forall_forall in Hlt. specialize (Hlt _ Hin). lia.
  - reflexivity.
Qed.

Lemma add_then_delete_expense_witness :
  BudgetMonth.expenses
    (snd (BudgetMonth.delete_expense_by_id 3
            (snd (BudgetMonth.add_expense march_5 10 "Food" " tea "
                    food_month))))
  = BudgetMonth.expenses food_month.
Proof.
  assert (Hinv : ledger_inv food_month).
  { split; simpl; repeat constructor; simpl; intuition discriminate. }
  exact (proj1 (proj2 (@add_then_delete_expense food_month march_5 10 "Food"
                         " tea " Hinv))).
Defined.

(** X9. In a month that satisfies the ledger invariant, the expense returned by
    [add_expense] bears the id the counter stood at and the trimmed
    description, is what a lookup of its id finds afterwards, and lookups of
    every other id answer as before. *)
Theorem add_expense_then_get (m : BudgetMonth.t) (d : date) (amount : Q)
    (category description : string) :
  ledger_inv m ->
  let r := BudgetMonth.add_expense d amount category description m in
  fst r = Expense.mk (BudgetMonth._next_expense_id m) d amount category
            (strip description) /\
  BudgetMonth.get_expense_by_id (Expense.expense_id (fst r)) (snd r)
  = Some (fst r) /\
  (forall id, id <> BudgetMonth._next_expense_id m ->
     BudgetMonth.get_expense_by_id id (snd r)
     = BudgetMonth.get_expense_by_id id m) /\
  BudgetMonth.expenses (snd r) = BudgetMonth.expenses m ++ [fst r].
Proof.
  intros [_ Hlt]. unfold BudgetMonth.add_expense, BudgetMonth.get_expense_by_id.
  cbn [fst snd BudgetMonth.expenses Expense.expense_id].
  split; [reflexivity|]. split; [|split; [|reflexivity]].
  - rewrite find_id_snoc. cbn [Expense.expense_id].
    assert (Hnone : find (fun e => Z.eqb (Expense.expense_id e)
                                      (BudgetMonth._next_expense_id m))
                      (BudgetMonth.expenses m) = None).
    { apply find_id_none. intros Hin. unfold expense_ids in Hlt.
      rewrite Forall_forall in Hlt. specialize (Hlt _ Hin). lia. }
    rewrite Hnone. now rewrite Z.eqb_refl.
  - intros id Hne. rewrite find_id_snoc. cbn [Expense.expense_id].
    destruct (find (fun e => Z.eqb (Expense.expense_id e) id)
                (BudgetMonth.expenses m)); [reflexivity|].
    destruct (Z.eqb (BudgetMonth._next_expense_id m) id) eqn:E; [|reflexivity].
    apply Z.eqb_eq in E. congruence.
Qed.

Lemma add_expense_then_get_witness :
  BudgetMonth.get_expense_by_id 3
    (snd (BudgetMonth.add_expense march_5 10 "Food" " tea " food_month))
  = Some (Expense.mk 3 march_5 10 "Food" "tea").
Proof.
  assert (Hinv : ledger_inv food_month).
  { split; simpl; repeat constructor; simpl; intuition discriminate. }
  exact (proj1 (proj2 (@add_expense_then_get food_month march_5 10 "Food"
                         " tea " Hinv))).
Defined.

(** ** Totals grouped by a key *)

Section Grouping.
Context {K A : Type} `{EqDec K} (key : A -> K) (val : A -> Q).

Lemma grouped_cons (x : A) (l : list A) (d0 : dict K Q) :
  grouped key val (x :: l) d0
  = grouped key val l
      (Dict.set (key x) (Dict.get_default (key x) 0.0 d0 + val x) d0).
Proof. reflexivity. Qed.

Lemma grouped_mem (k : K) (l : list A) (d0 : dict K Q) :
  Dict.mem k (grouped key val l d0) = true <->
  Dict.mem k d0 = true \/ exists x, In x l /\ key x = k.
Proof.
  revert d0. induction l as [|x l IH]; intros d0; [|rewrite grouped_cons].
  - split; [now left | intros [?|[x [[] _]]]; assumption].
  - rewrite IH. destruct (eq_dec (key x) k) as [Heq|Hne].
    + subst k. rewrite mem_set_same. split; intros _.
      * right. exists x. split; [now left | reflexivity].
      * now left.
    + rewrite mem_set_other by assumption. split.
      * intros [Hm|[y [Hin Hk]]]; [now left|].
        right. exists y. split; [now right | assumption].
      * intros [Hm|[y [[<-|Hin] Hk]]]; [now left | contradiction |].
        right. exists y. now split.
Qed.

Lemma grouped_unique (l : list A) (d0 : dict K Q) :
  unique_keys d0 -> unique_keys (grouped key val l d0).
Proof.
  revert d0. induction l as [|x l IH]; intros d0 Hd; [|rewrite grouped_cons].
  - assumption.
  - apply IH. now apply unique_keys_set.
Qed.


End Grouping.

Lemma has_expenses_iff (name : string) (m : BudgetMonth.t) :
  BudgetMonth.category_has_expenses name m = true <->
  exists e, In e (BudgetMonth.expenses m) /\ Expense.category e = name.
Proof.
  unfold BudgetMonth.category_has_expenses. rewrite existsb_exists.
  split; intros [e [Hin He]]; exists e; split; try assumption;
    now apply String.eqb_eq.
Qed.

(** X11. The keys of [total_by_category] are exactly the categories that have an
    expense, each once: a category without expenses has no entry, not a
    zero entry. *)
Theorem total_by_category_keys (m : BudgetMonth.t) :
  (forall name,
     Dict.mem name (BudgetMonth.total_by_category m)
     = BudgetMonth.category_has_expenses name m) /\
  unique_keys (BudgetMonth.total_by_category m).
Proof.
  change (BudgetMonth.total_by_category m)
    with (grouped Expense.category Expense.amount (BudgetMonth.expenses m) []).
  split.
  - intros name.
    apply eq_true_iff_eq.
    rewrite (grouped_mem Expense.category Expense.amount), has_expenses_iff.
    split; [intros [Hm|Hex]; [discriminate | assumption] | now right].
  - apply (grouped_unique Expense.category Expense.amount). constructor.
Qed.

(** ** Greatest and smallest items *)

Section Extremes.
Context {A : Type} (key : A -> Q).

Lemma max_from_gen (before mid rest : list A) (b : A) :
  (forall x, In x before -> key x < key b) ->
  (forall x, In x mid -> key x <= key b) ->
  exists before' after',
    before ++ b :: mid ++ rest = before' ++ max_from key b rest :: after' /\
    (forall x, In x before' -> key x < key (max_from key b rest)) /\
    (forall x, In x after' -> key x <= key (max_from key b rest)).
Proof.
  revert before mid b. unfold max_from.
  induction rest as [|y rest IH]; intros before mid b Hb Hm; cbn [fold_left].
  - exists before, mid. rewrite app_nil_r. now repeat split.
  - destruct (Qgtb (key y) (key b)) eqn:E.
    + apply Qgtb_true in E.
      destruct (IH (before ++ b :: mid) (@nil A) y) as (b' & a' & Heq & Hlt & Hle).
      * intros x Hx. apply in_app_iff in Hx.
        destruct Hx as [Hx|[<-|Hx]]; [|assumption|].
        -- eapply Qlt_trans; [now apply Hb | exact E].
        -- eapply Qle_lt_trans; [now apply Hm | exact E].
      * intros x [].
      * exists b', a'. split; [|now split].
        rewrite <- Heq. rewrite <- !app_assoc. reflexivity.
    + apply Qgtb_false in E.
      destruct (IH before (mid ++ [y]) b) as (b' & a' & Heq & Hlt & Hle).
      * assumption.
      * intros x Hx. apply in_app_iff in Hx.
        destruct Hx as [Hx|[<-|[]]]; [now apply Hm | assumption].
      * exists b', a'. split; [|now split].
        rewrite <- Heq. rewrite <- !app_assoc. reflexivity.
Qed.

Lemma min_from_gen (before mid rest : list A) (b : A) :
  (forall x, In x before -> key b < key x) ->
  (forall x, In x mid -> key b <= key x) ->
  exists before' after',
    before ++ b :: mid ++ rest = before' ++ min_from key b rest :: after' /\
    (forall x, In x before' -> key (min_from key b rest) < key x) /\
    (forall x, In x after' -> key (min_from key b rest) <= key x).
Proof.
  revert before mid b. unfold min_from.
  induction rest as [|y rest IH]; intros before mid b Hb Hm; cbn [fold_left].
  - exists before, mid. rewrite app_nil_r. now repeat split.
  - destruct (Qltb (key y) (key b)) eqn:E.
    + apply Qltb_true in E.
      destruct (IH (before ++ b :: mid) (@nil A) y) as (b' & a' & Heq & Hlt & Hle).
      * intros x Hx. apply in_app_iff in Hx.
        destruct Hx as [Hx|[<-|Hx]]; [|assumption|].
        -- eapply Qlt_trans; [exact E | now apply Hb].
        -- eapply Qlt_le_trans; [exact E | now apply Hm].
      * intros x [].
      * exists b', a'. split; [|now split].
        rewrite <- Heq. rewrite <- !app_assoc. reflexivity.
    + apply Qltb_false in E.
      destruct (IH before (mid ++ [y]) b) as (b' & a' & Heq & Hlt & Hle).
      * assumption.
      * intros x Hx. apply in_app_iff in Hx.
        destruct Hx as [Hx|[<-|[]]]; [now apply Hm | assumption].
      * exists b', a'. split; [|now split].
        rewrite <- Heq. rewrite <- !app_assoc. reflexivity.
Qed.

(** [max] returns the first item of greatest key. *)
Lemma max_from_first (first : A) (rest : list A) :
  exists before after,
    first :: rest = before ++ max_from key first rest :: after /\
    (forall x, In x before -> key x < key (max_from key first rest)) /\
    (forall x, In x after -> key x <= key (max_from key first rest)).
Proof.
  destruct (@max_from_gen [] [] rest first) as (b & a & Heq & Hlt & Hle);
    try (intros x []).
  exists b, a. now repeat split.
Qed.

(** [min] returns the first item of smallest key. *)
Lemma min_from_first (first : A) (rest : list A) :
  exists before after,
    first :: rest = before ++ min_from key first rest :: after /\
    (forall x, In x before -> key (min_from key first rest) < key x) /\
    (forall x, In x after -> key (min_from key first rest) <= key x).
Proof.
  destruct (@min_from_gen [] [] rest first) as (b & a & Heq & Hlt & Hle);
    try (intros x []).
  exists b, a. now repeat split.
Qed.

End Extremes.

Lemma grouped_nonempty {K : Type} `{EqDec K} (key : Expense.t -> K)
    (e : Expense.t) (es : list Expense.t) :
  grouped key Expense.amount (e :: es) [] <> [].
Proof.
  intros Hnil.
  assert (Hm : Dict.mem (key e) (grouped key Expense.amount (e :: es) []) = true).
  { apply grouped_mem. right. exists e. split; [now left | reflexivity]. }
  rewrite Hnil in Hm. discriminate.
Qed.

(** X13. Without expenses [top_and_lowest_category] answers (None, None). With
    expenses it answers two entries of [total_by_category]: the first entry,
    in the order of the dictionary, whose total is the greatest, and the
    first whose total is the smallest. *)
Theorem top_and_lowest_category_spec (m : BudgetMonth.t) :
  (BudgetMonth.expenses m = [] ->
   BudgetMonth.top_and_lowest_category m = (None, None)) /\
  (BudgetMonth.expenses m <> [] ->
   exists top low,
     BudgetMonth.top_and_lowest_category m = (Some top, Some low) /\
     (exists before after,
        BudgetMonth.total_by_category m = before ++ top :: after /\
        (forall x, In x before -> snd x < snd top) /\
        (forall x, In x after -> snd x <= snd top)) /\
     (exists before after,
        BudgetMonth.total_by_category m = before ++ low :: after /\
        (forall x, In x before -> snd low < snd x) /\
        (forall x, In x after -> snd low <= snd x))).
Proof.
  unfold BudgetMonth.top_and_lowest_category. cbv zeta. split.
  - unfold BudgetMonth.total_by_category. intros ->. reflexivity.
  - intros Hne.
    destruct (BudgetMonth.total_by_category m) as [|first rest] eqn:Ht.
    + exfalso. destruct (BudgetMonth.expenses m) as [|e es] eqn:He;
        [congruence|].
      apply (grouped_nonempty Expense.category e es).
      unfold BudgetMonth.total_by_category in Ht. rewrite He in Ht. exact Ht.
    + exists (max_from snd first rest), (min_from snd first rest).
      split; [reflexivity|]. split.
      * apply max_from_first.
      * apply min_from_first.
Qed.

Lemma top_and_lowest_category_spec_witness :
  BudgetMonth.top_and_lowest_category (BudgetMonth.init "2024-03")
  = (None, None).
Proof.
  apply (proj1 (top_and_lowest_category_spec (BudgetMonth.init "2024-03"))).
  reflexivity.
Defined.



(** ** Categories *)

(** X15. A limit is never negative when the category's value and the budget are
    not. *)
Theorem calc_limit_nonneg (c : Category.t) (b : Q) :
  0 <= Category.value c -> 0 <= b -> 0 <= Category.calc_limit c b.
Proof.
  intros Hv Hb. unfold Category.calc_limit.
  destruct (String.eqb (Category.limit_type c) "percent"); [|assumption].
  apply Qmult_le_0_compat; [assumption|].
  apply Qle_shift_div_l; [reflexivity|]. lra.
Qed.

Lemma calc_limit_nonneg_witness :
  0 <= Category.calc_limit (Category.mk "Fun" "percent" 20) 1000.
Proof.
  apply calc_limit_nonneg.
  - vm_compute. discriminate.
  - vm_compute. discriminate.
Defined.

(** X16. [update_category_limit] returns true exactly when the name is a key of
    the category map; a false return changes nothing; a true return rewrites
    type and value of that one entry whatever the new limit is, keeps its
    name attribute, the keys and their order, every other entry, the
    expenses and the budget. *)
Theorem update_category_limit_spec (m : BudgetMonth.t)
    (name limit_type : string) (value : Q) :
  let r := BudgetMonth.update_category_limit name limit_type value m in
  (fst r = true <-> In name (Dict.keys (BudgetMonth.categories m))) /\
  (fst r = false -> snd r = m) /\
  (forall c, Dict.get name (BudgetMonth.categories m) = Some c ->
     Dict.get name (BudgetMonth.categories (snd r))
     = Some (Category.mk (Category.name c) limit_type value)) /\
  (forall k, k <> name ->
     Dict.get k (BudgetMonth.categories (snd r))
     = Dict.get k (BudgetMonth.categories m)) /\
  Dict.keys (BudgetMonth.categories (snd r))
  = Dict.keys (BudgetMonth.categories m) /\
  BudgetMonth.expenses (snd r) = BudgetMonth.expenses m /\
  BudgetMonth.budget (snd r) = BudgetMonth.budget m.
Proof.
  unfold BudgetMonth.update_category_limit.
  rewrite <- mem_true_iff.
  destruct (Dict.get name (BudgetMonth.categories m)) as [c|] eqn:Hg;
    month_fields.
  - pose proof (mem_of_get_some _ _ Hg) as Hm.
    split; [tauto|]. split; [discriminate|].
    split; [intros c' [= <-]; apply get_set_same|].
    split; [intros k Hk; apply get_set_other; congruence|].
    split; [now apply keys_set_present | now split].
  - pose proof (mem_of_get_none _ _ Hg) as Hm.
    split; [rewrite Hm; split; discriminate|].
    split; [reflexivity|].
    split; [discriminate | now repeat split].
Qed.

Lemma update_category_limit_spec_witness :
  Dict.get "Food"%string
    (BudgetMonth.categories
       (snd (BudgetMonth.update_category_limit "Food" "percent" 900
               food_month)))
  = Some (Category.mk "Food" "percent" 900).
Proof.
  apply (proj1 (proj2 (proj2
           (update_category_limit_spec food_month "Food" "percent" 900)))
           (Category.mk "Food" "fixed" 500)).
  reflexivity.
Defined.

(** X17. Once a category was added, a candidate whose name trims to the same
    string is refused and changes nothing, whatever its type and value: an
    entry is never overwritten by [add_category]. *)
Theorem add_category_collision (m : BudgetMonth.t) (c1 c2 : Category.t) :
  fst (BudgetMonth.add_category c1 m) = true ->
  strip (Category.name c2) = strip (Category.name c1) ->
  BudgetMonth.add_category c2 (snd (BudgetMonth.add_category c1 m))
  = (false, snd (BudgetMonth.add_category c1 m)).
Proof.
  intros Hok Hsame.
  rewrite (add_category_inserts m c1 Hok).
  pose proof (proj1 (add_category_true m c1) Hok) as [_ Hm].
  unfold BudgetMonth.add_category at 1. cbv zeta. month_fields.
  rewrite Hsame. rewrite <- set_fresh by assumption.
  rewrite mem_set_same. now rewrite orb_true_r.
Qed.

Lemma add_category_collision_witness :
  fst (BudgetMonth.add_category (Category.mk " Food " "percent" 5)
         (snd (BudgetMonth.add_category (Category.mk "Food" "fixed" 400)
                 (BudgetMonth.init "2024-03"))))
  = false.
Proof.
  rewrite (@add_category_collision (BudgetMonth.init "2024-03")
             (Category.mk "Food" "fixed" 400)
             (Category.mk " Food " "percent" 5) eq_refl eq_refl).
  reflexivity.
Defined.

(** [add_category] keeps every entry that was there, in place, and touches
    neither the expenses nor the budget nor the id counter. *)
Theorem add_category_keeps_rest (m : BudgetMonth.t) (cat : Category.t) :
  let m' := snd (BudgetMonth.add_category cat m) in
  (forall k, k <> strip (Category.name cat) ->
     Dict.get k (BudgetMonth.categories m')
     = Dict.get k (BudgetMonth.categories m)) /\
  (forall k c, Dict.get k (BudgetMonth.categories m) = Some c ->
     Dict.get k (BudgetMonth.categories m') = Some c) /\
  BudgetMonth.expenses m' = BudgetMonth.expenses m /\
  BudgetMonth.budget m' = BudgetMonth.budget m /\
  BudgetMonth._next_expense_id m' = BudgetMonth._next_expense_id m.
Proof.
  unfold BudgetMonth.add_category. cbv zeta.
  destruct (str_is_empty (strip (Category.name cat))); cbn [orb];
    [now repeat split|].
  destruct (Dict.mem (strip (Category.name cat)) (BudgetMonth.categories m))
    eqn:Hm; [now repeat split|].
  month_fields. split; [|split; [|now repeat split]].
  - intros k Hk. apply get_set_other. congruence.
  - intros k c Hg.
    destruct (string_dec (strip (Category.name cat)) k) as [Heq|Hne].
    + subst k. apply mem_of_get_some in Hg. congruence.
    + now rewrite get_set_other.
Qed.

Lemma add_category_keeps_rest_witness :
  Dict.get "Food"%string
    (BudgetMonth.categories
       (snd (BudgetMonth.add_category (Category.mk "Fun" "percent" 20)
               food_month)))
  = Some (Category.mk "Food" "fixed" 500).
Proof.
  apply (proj1 (proj2 (add_category_keeps_rest food_month
                         (Category.mk "Fun" "percent" 20)))).
  reflexivity.
Defined.

(** ** The overview rows *)

Lemma Qdiv_nonneg (a b : Q) : 0 <= a -> 0 < b -> 0 <= a / b.
Proof.
  intros Ha Hb. apply Qle_shift_div_l; [assumption|]. lra.
Qed.

(** X18. In every row of the overview the colour of the bar goes with the icon:
    green with the safe icon, yellow with alert, orange with warning, red
    with danger, and green again for a category without a positive limit
    (info), whose bar is empty. The bar is never wider than 100, and never
    narrower than 0 when the spend total is not negative. *)
Theorem progress_row_consistent (totals : dict string Q) (budget : Q)
    (cat_name : string) (cat : Category.t) :
  let row := UI.progress_row totals budget cat_name cat in
  UI.row_bar_color row
  = match UI.row_icon row with
    | Info => "#4CAF50"
    | Safe => "#4CAF50"
    | Alert => "#FFC107"
    | Warning => "#FF9800"
    | Danger => "#F44336"
    end%string /\
  (UI.row_icon row = Info -> UI.row_visual_width row == 0) /\
  UI.row_visual_width row <= 100 /\
  (0 <= UI.row_spent row -> 0 <= UI.row_visual_width row).
Proof.
  unfold UI.progress_row. cbv zeta.
  cbn [UI.row_bar_color UI.row_icon UI.row_visual_width UI.row_spent].
  set (spent := Dict.get_default cat_name 0.0 totals).
  set (limit := Category.calc_limit cat budget).
  unfold calc_status, get_progress_color. cbv zeta.
  destruct (Qleb limit 0) eqn:Hl.
  - split; [reflexivity|]. unfold min2.
    split; [intros _; vm_compute; reflexivity|].
    split; [vm_compute; discriminate | intros _; vm_compute; discriminate].
  - apply Qleb_false in Hl.
    split.
    { destruct (Qltb (spent / limit) 0.50); [reflexivity|].
      destruct (Qltb (spent / limit) 0.80); [reflexivity|].
      destruct (Qltb (spent / limit) 1.00); reflexivity. }
    split.
    { destruct (Qltb (spent / limit) 0.50); [discriminate|].
      destruct (Qltb (spent / limit) 0.80); [discriminate|].
      destruct (Qltb (spent / limit) 1.00); discriminate. }
    unfold min2.
    destruct (Qltb 100 (spent / limit * 100)) eqn:Hw.
    + split; [apply Qle_refl | intros _; vm_compute; discriminate].
    + apply Qltb_false in Hw. split; [assumption|].
      intros Hs. pose proof (Qdiv_nonneg Hs Hl) as Hq.
      apply Qmult_le_0_compat; [assumption | vm_compute; discriminate].
Qed.

Lemma progress_row_consistent_witness :
  UI.row_visual_width
    (UI.progress_row (BudgetMonth.total_by_category zero_cap_month) 100
       "Misc" (Category.mk "Misc" "fixed" 0)) == 0.
Proof.
  apply (proj1 (proj2 (progress_row_consistent
                         (BudgetMonth.total_by_category zero_cap_month) 100
                         "Misc" (Category.mk "Misc" "fixed" 0)))).
  reflexivity.
Defined.

(** ** Setting a month up *)

(** X19. "Save Month Setup" on a month without categories stores the typed
    budget and the six default categories, each a copy filed under its own
    name, in their order; the month is then set up, and its ledger is
    untouched. *)
Theorem setup_save_default_spec (cur : BudgetTrackerApp.ref)
    (budget_input : Q) (app : BudgetTrackerApp.t) (m : BudgetMonth.t) :
  BudgetTrackerApp.deref cur app = Some m ->
  BudgetMonth.categories m = [] ->
  exists m',
    UI.setup_save_default cur budget_input app
    = (OkSetupSaved, BudgetTrackerApp.store cur m' app) /\
    BudgetTrackerApp.deref cur (BudgetTrackerApp.store cur m' app) = Some m' /\
    BudgetMonth.budget m' = Some budget_input /\
    BudgetMonth.categories m'
    = map (fun c => (Category.name c, c)) BudgetTrackerApp.default_categories /\
    BudgetMonth.is_setup m' = true /\
    BudgetMonth.expenses m' = BudgetMonth.expenses m /\
    BudgetMonth._next_expense_id m' = BudgetMonth._next_expense_id m.
Proof.
  intros Hd Hc. unfold UI.setup_save_default. rewrite Hd.
  assert (Hns : BudgetMonth.is_setup m = false).
  { unfold BudgetMonth.is_setup. rewrite Hc.
    destruct (BudgetMonth.budget m); reflexivity. }
  rewrite Hns.
  eexists. split; [reflexivity|].
  split; [eapply deref_store; exact Hd|].
  destruct m as [k b cs es n]. cbn [BudgetMonth.categories] in Hc. subst cs.
  now repeat split.
Qed.

Lemma setup_save_default_spec_witness :
  exists m',
    BudgetTrackerApp.deref 0%nat
      (snd (UI.setup_save_default 0%nat 1000
              (snd (BudgetTrackerApp.get_month "2024-03"
                      BudgetTrackerApp.init)))) = Some m' /\
    Dict.keys (BudgetMonth.categories m')
    = ["Expenses"; "Entertainment"; "Charity"; "Savings"; "Investment";
       "Education"]%string.
Proof.
  destruct (@setup_save_default_spec 0%nat 1000
              (snd (BudgetTrackerApp.get_month "2024-03" BudgetTrackerApp.init))
              (BudgetMonth.init "2024-03") eq_refl eq_refl)
    as (m' & Hrun & Hderef & _ & Hcats & _).
  exists m'. rewrite Hrun. split; [exact Hderef|]. rewrite Hcats. reflexivity.
Defined.

(** ** More on the registry *)

Lemma get_In {K V : Type} `{EqDec K} (k : K) (v : V) (d : dict K V) :
  Dict.get k d = Some v -> In (k, v) d.
Proof.
  induction d as [|[k' v'] d IH]; simpl; [discriminate|].
  destruct (eq_dec k k') as [->|Hne]; [intros [= ->]; now left | auto].
Qed.

Lemma In_get {K V : Type} `{EqDec K} (k : K) (v : V) (d : dict K V) :
  unique_keys d -> In (k, v) d -> Dict.get k d = Some v.
Proof.
  unfold unique_keys. induction d as [|[k' v'] d IH]; simpl; [tauto|].
  intros Hnd [Hhd|Htl]; inversion Hnd as [|? ? Hnotin Hrest]; subst.
  - inversion Hhd; subst. destruct (eq_dec k k); congruence.
  - destruct (eq_dec k k') as [->|Hne]; [|auto].
    exfalso. apply Hnotin. apply in_map_iff. now exists (k', v).
Qed.

(** X20. [get_month] with a key the registry does not hold makes one new month
    object, empty and not set up, registers it under the key and hands out
    its reference; every object and every registration that existed is
    still there, unchanged. *)
Theorem get_month_creates (app : BudgetTrackerApp.t) (key : string) :
  Dict.get key (BudgetTrackerApp.months app) = None ->
  let r := BudgetTrackerApp.get_month key app in
  BudgetTrackerApp.deref (fst r) (snd r) = Some (BudgetMonth.init key) /\
  Dict.get key (BudgetTrackerApp.months (snd r)) = Some (fst r) /\
  BudgetTrackerApp.objects (snd r)
  = BudgetTrackerApp.objects app ++ [BudgetMonth.init key] /\
  (forall r0 m, BudgetTrackerApp.deref r0 app = Some m ->
                BudgetTrackerApp.deref r0 (snd r) = Some m) /\
  (forall k r0, Dict.get k (BudgetTrackerApp.months app) = Some r0 ->
                Dict.get k (BudgetTrackerApp.months (snd r)) = Some r0).
Proof.
  intros Hg. rewrite (get_month_absent app key Hg). cbn [fst snd].
  unfold BudgetTrackerApp.deref. cbn [BudgetTrackerApp.objects
                                       BudgetTrackerApp.months].
  split; [|split; [|split; [reflexivity|split]]].
  - rewrite nth_error_app2 by lia. now rewrite Nat.sub_diag.
  - rewrite <- set_fresh by now apply mem_of_get_none. apply get_set_same.
  - intros r0 m Hr. rewrite nth_error_app1; [assumption|].
    apply nth_error_Some. congruence.
  - intros k r0 Hk. rewrite <- set_fresh by now apply mem_of_get_none.
    rewrite get_set_other; [assumption | congruence].
Qed.

Lemma get_month_creates_witness :
  BudgetTrackerApp.deref 0%nat
    (snd (BudgetTrackerApp.get_month "2024-03" BudgetTrackerApp.init))
  = Some (BudgetMonth.init "2024-03").
Proof.
  exact (proj1 (@get_month_creates BudgetTrackerApp.init "2024-03" eq_refl)).
Defined.

Lemma registry_inv_get_month (app : BudgetTrackerApp.t) (key : string) :
  registry_inv app -> registry_inv (snd (BudgetTrackerApp.get_month key app)).
Proof.
  intros (Hu & Hv & Hr).
  destruct (Dict.get key (BudgetTrackerApp.months app)) as [r|] eqn:Hg.
  - rewrite (get_month_present app key Hg). now repeat split.
  - split; [|split].
    + unfold BudgetTrackerApp.get_month. rewrite Hg. cbn.
      now apply unique_keys_set.
    + rewrite (get_month_absent app key Hg).
      cbn [snd BudgetTrackerApp.months]. unfold Dict.values in *.
      rewrite map_app. cbn [map snd].
      assert (Hperm : NoDup (List.length (BudgetTrackerApp.objects app)
                              :: map snd (BudgetTrackerApp.months app))).
      { constructor; [|assumption]. intros Hin.
        apply in_map_iff in Hin. destruct Hin as [[k r] [Hsnd Hin]].
        cbn in Hsnd. subst r.
        pose proof (Hr k _ (In_get k _ Hu Hin)). lia. }
      revert Hperm. apply Permutation_NoDup. apply Permutation_cons_append.
    + now apply get_month_refs_valid.
Qed.

Lemma get_values_injective {K V : Type} `{EqDec K} (k1 k2 : K) (v : V)
    (d : dict K V) :
  NoDup (Dict.values d) ->
  Dict.get k1 d = Some v -> Dict.get k2 d = Some v -> k1 = k2.
Proof.
  unfold Dict.values. induction d as [|[k' v'] d IH]; simpl; [discriminate|].
  intros Hnd. inversion Hnd as [|? ? Hnotin Hrest]; subst.
  destruct (eq_dec k1 k') as [->|H1], (eq_dec k2 k') as [->|H2];
    intros G1 G2.
  - reflexivity.
  - inversion G1; subst. exfalso. apply Hnotin.
    apply in_map_iff. exists (k2, v). split; [reflexivity | now apply get_In].
  - inversion G2; subst. exfalso. apply Hnotin.
    apply in_map_iff. exists (k1, v). split; [reflexivity | now apply get_In].
  - now apply IH.
Qed.

(** In a registry that satisfies its invariant (as the empty one does, and
    as [get_month] keeps), two different keys never lead to the same month
    object. *)
Theorem get_month_distinct (app : BudgetTrackerApp.t) (k1 k2 : string) :
  registry_inv app -> k1 <> k2 ->
  let first := BudgetTrackerApp.get_month k1 app in
  let second := BudgetTrackerApp.get_month k2 (snd first) in
  fst first <> fst second /\
  registry_inv (snd second) /\
  Dict.get k1 (BudgetTrackerApp.months (snd second)) = Some (fst first) /\
  Dict.get k2 (BudgetTrackerApp.months (snd second)) = Some (fst second).
Proof.
  intros Hinv Hne first second.
  pose proof (registry_inv_get_month k1 Hinv) as Hinv1. fold first in Hinv1.
  pose proof (registry_inv_get_month k2 Hinv1) as Hinv2. fold second in Hinv2.
  pose proof (get_month_registers app k1) as Hr1. fold first in Hr1.
  pose proof (get_month_registers (snd first) k2) as Hr2. fold second in Hr2.
  assert (Hr1' : Dict.get k1 (BudgetTrackerApp.months (snd second))
                 = Some (fst first)).
  { unfold second, BudgetTrackerApp.get_month.
    destruct (Dict.get k2 (BudgetTrackerApp.months (snd first))) eqn:Hg;
      cbn [snd BudgetTrackerApp.months]; [assumption|].
    rewrite get_set_other; [assumption | congruence]. }
  repeat split; try assumption; try apply Hinv2.
  intros Heq. apply Hne.
  destruct Hinv2 as (_ & Hv & _).
  eapply get_values_injective; [exact Hv | exact Hr1' |].
  now rewrite Heq.
Qed.

Lemma get_month_distinct_witness :
  fst (BudgetTrackerApp.get_month "2024-03" BudgetTrackerApp.init)
  <> fst (BudgetTrackerApp.get_month "2024-04"
            (snd (BudgetTrackerApp.get_month "2024-03" BudgetTrackerApp.init))).
Proof.
  assert (Hinv : registry_inv BudgetTrackerApp.init).
  { split; [constructor | split; [constructor | intros k r; discriminate]]. }
  assert (Hne : "2024-03"%string <> "2024-04"%string) by discriminate.
  exact (proj1 (@get_month_distinct BudgetTrackerApp.init "2024-03" "2024-04"
                  Hinv Hne)).
Defined.

(** ** The store *)

Lemma list_set_same {A : Type} (l : list A) (n : nat) (x : A) :
  nth_error l n = Some x -> BudgetTrackerApp.list_set l n x = l.
Proof.
  revert n. induction l as [|y l IH]; intros [|n]; simpl; try discriminate.
  - now intros [= ->].
  - intros Hn. now rewrite IH.
Qed.

Lemma list_set_other {A : Type} (l : list A) (n n' : nat) (x : A) :
  n <> n' ->
  nth_error (BudgetTrackerApp.list_set l n x) n' = nth_error l n'.
Proof.
  revert n n'. induction l as [|y l IH]; intros [|n] [|n'] Hne; simpl;
    try reflexivity; try congruence.
  apply IH. congruence.
Qed.

Lemma store_same (r : BudgetTrackerApp.ref) (m : BudgetMonth.t)
    (app : BudgetTrackerApp.t) :
  BudgetTrackerApp.deref r app = Some m -> BudgetTrackerApp.store r m app = app.
Proof.
  destruct app as [ms objs]. unfold BudgetTrackerApp.deref, BudgetTrackerApp.store.
  simpl. intros Hn. now rewrite list_set_same.
Qed.

Lemma deref_store_other (r r' : BudgetTrackerApp.ref) (m : BudgetMonth.t)
    (app : BudgetTrackerApp.t) :
  r <> r' ->
  BudgetTrackerApp.deref r' (BudgetTrackerApp.store r m app)
  = BudgetTrackerApp.deref r' app.
Proof.
  intros Hne. unfold BudgetTrackerApp.deref, BudgetTrackerApp.store. simpl.
  now apply list_set_other.
Qed.

Lemma get_month_keeps (app : BudgetTrackerApp.t) (key : string) :
  (forall r m, BudgetTrackerApp.deref r app = Some m ->
     BudgetTrackerApp.deref r (snd (BudgetTrackerApp.get_month key app))
     = Some m) /\
  (forall k r, Dict.get k (BudgetTrackerApp.months app) = Some r ->
     Dict.get k
       (BudgetTrackerApp.months (snd (BudgetTrackerApp.get_month key app)))
     = Some r).
Proof.
  destruct (Dict.get key (BudgetTrackerApp.months app)) as [r0|] eqn:Hg.
  - rewrite (get_month_present app key Hg). now split.
  - rewrite (get_month_absent app key Hg). cbn [snd]. split.
    + intros r m Hr. unfold BudgetTrackerApp.deref in *.
      cbn [BudgetTrackerApp.objects].
      rewrite nth_error_app1; [assumption|].
      apply nth_error_Some. congruence.
    + intros k r Hk. cbn [BudgetTrackerApp.months].
      rewrite <- set_fresh by now apply mem_of_get_none.
      rewrite get_set_other; [assumption | congruence].
Qed.

(** ** The add-expense form *)

(** X22. An accepted expense is logged in the month named by its own date,
    which the form looks up or creates, whatever month is selected; that
    month is set up, the amount is positive, the category is stored as
    typed in without a lookup in that month's categories, and no other
    month object changes. *)
Theorem add_expense_submit_stores (cur : BudgetTrackerApp.ref)
    (exp_date : date) (exp_cat : string) (exp_amount : Q) (exp_desc : string)
    (app app' : BudgetTrackerApp.t) :
  UI.add_expense_submit cur exp_date exp_cat exp_amount exp_desc app
  = (OkExpenseAdded, app') ->
  let target :=
    fst (BudgetTrackerApp.get_month (month_key_from_date exp_date) app) in
  let app1 :=
    snd (BudgetTrackerApp.get_month (month_key_from_date exp_date) app) in
  exists tm,
    BudgetTrackerApp.deref target app1 = Some tm /\
    BudgetMonth.is_setup tm = true /\
    0 < exp_amount /\
    BudgetTrackerApp.deref target app'
    = Some (snd (BudgetMonth.add_expense exp_date exp_amount exp_cat exp_desc
                   tm)) /\
    (forall r, r <> target ->
       BudgetTrackerApp.deref r app' = BudgetTrackerApp.deref r app1).
Proof.
  unfold UI.add_expense_submit.
  destruct (BudgetTrackerApp.deref cur app) as [current_month|]; [|discriminate].
  destruct (negb (BudgetMonth.is_setup current_month)); [discriminate|].
  destruct (Qleb exp_amount 0) eqn:Hpos; [discriminate|].
  apply Qleb_false in Hpos.
  destruct (BudgetTrackerApp.get_month (month_key_from_date exp_date) app)
    as [target app1].
  destruct (BudgetTrackerApp.deref target app1) as [tm|] eqn:Hd; [|discriminate].
  destruct (BudgetMonth.is_setup tm) eqn:Hs; cbn [negb]; [|discriminate].
  destruct (BudgetMonth.budget tm) as [b|]; [|discriminate].
  cbv zeta.
  destruct (Qgtb (BudgetMonth.total_expenses tm + exp_amount) (b + 1e-9));
    [discriminate|].
  destruct (BudgetMonth.add_expense exp_date exp_amount exp_cat exp_desc tm)
    as [e m'] eqn:Hadd.
  intros [= <-]. cbn [fst snd]. exists tm. rewrite Hadd. cbn [snd].
  repeat split; try assumption.
  - eapply deref_store. exact Hd.
  - intros r Hr. apply deref_store_other. congruence.
Qed.

Lemma add_expense_submit_stores_witness :
  exists tm,
    BudgetTrackerApp.deref 0%nat (snd app_one_expense)
    = Some (snd (BudgetMonth.add_expense march_5 300 "Expenses" "rent" tm)).
Proof.
  destruct (@add_expense_submit_stores 0%nat march_5 "Expenses" 300 "rent"
              (snd (UI.setup_save_default 0%nat 1000
                      (snd (BudgetTrackerApp.get_month "2024-03"
                              BudgetTrackerApp.init))))
              (snd app_one_expense) eq_refl)
    as (tm & _ & _ & _ & Hstored & _).
  exists tm. exact Hstored.
Defined.

Lemma add_expense_submit_within_budget_witness :
  exists m' b,
    BudgetTrackerApp.deref 0%nat (snd app_one_expense) = Some m' /\
    BudgetMonth.budget m' = Some b /\
    BudgetMonth.total_expenses m' <= b + 1e-9.
Proof.
  exact (@add_expense_submit_within_budget 0%nat march_5 "Expenses" 300 "rent"
           (snd (UI.setup_save_default 0%nat 1000
                   (snd (BudgetTrackerApp.get_month "2024-03"
                           BudgetTrackerApp.init))))
           (snd app_one_expense) eq_refl).
Defined.

(** X23. A submission that is not accepted changes no month object and no
    registration that existed. *)
Theorem add_expense_submit_refused (cur : BudgetTrackerApp.ref)
    (exp_date : date) (exp_cat : string) (exp_amount : Q) (exp_desc : string)
    (app : BudgetTrackerApp.t) :
  let r := UI.add_expense_submit cur exp_date exp_cat exp_amount exp_desc app in
  fst r <> OkExpenseAdded ->
  (forall r0 m, BudgetTrackerApp.deref r0 app = Some m ->
                BudgetTrackerApp.deref r0 (snd r) = Some m) /\
  (forall k r0, Dict.get k (BudgetTrackerApp.months app) = Some r0 ->
                Dict.get k (BudgetTrackerApp.months (snd r)) = Some r0).
Proof.
  unfold UI.add_expense_submit.
  pose proof (get_month_keeps app (month_key_from_date exp_date)) as Hkeep.
  destruct (BudgetTrackerApp.deref cur app) as [current_month|];
    [|cbn; now split].
  destruct (negb (BudgetMonth.is_setup current_month)); [cbn; now split|].
  destruct (Qleb exp_amount 0); [cbn; now split|].
  destruct (BudgetTrackerApp.get_month (month_key_from_date exp_date) app)
    as [target app1]. cbn [snd] in Hkeep.
  destruct (BudgetTrackerApp.deref target app1) as [tm|];
    [|cbn [fst snd]; intros _; exact Hkeep].
  destruct (negb (BudgetMonth.is_setup tm));
    [cbn [fst snd]; intros _; exact Hkeep|].
  destruct (BudgetMonth.budget tm) as [b|];
    [|cbn [fst snd]; intros _; exact Hkeep].
  cbv zeta.
  destruct (Qgtb (BudgetMonth.total_expenses tm + exp_amount) (b + 1e-9));
    [cbn [fst snd]; intros _; exact Hkeep|].
  destruct (BudgetMonth.add_expense exp_date exp_amount exp_cat exp_desc tm).
  cbn [fst]. congruence.
Qed.

Lemma add_expense_submit_refused_witness :
  BudgetTrackerApp.deref 0%nat
    (snd (UI.add_expense_submit 0%nat march_5 "Expenses" 5000 ""
            (snd app_one_expense)))
  = month_one_expense.
Proof.
  destruct month_one_expense as [m|] eqn:Hm; [|discriminate Hm].
  apply (proj1 (@add_expense_submit_refused 0%nat march_5 "Expenses" 5000 ""
                  (snd app_one_expense) ltac:(discriminate))).
  exact Hm.
Defined.

(** X24. A positive expense dated in a month the registry has never seen is
    refused because that month is not set up, and the refusal leaves that
    month registered, as one new empty month object. *)
Theorem add_expense_submit_registers_month (cur : BudgetTrackerApp.ref)
    (exp_date : date) (exp_cat : string) (exp_amount : Q) (exp_desc : string)
    (app : BudgetTrackerApp.t) (current_month : BudgetMonth.t) :
  BudgetTrackerApp.deref cur app = Some current_month ->
  BudgetMonth.is_setup current_month = true ->
  0 < exp_amount ->
  Dict.get (month_key_from_date exp_date) (BudgetTrackerApp.months app) = None ->
  UI.add_expense_submit cur exp_date exp_cat exp_amount exp_desc app
  = (ErrMonthNotSetUp (month_key_from_date exp_date),
     BudgetTrackerApp.mk
       (BudgetTrackerApp.months app
        ++ [(month_key_from_date exp_date,
             List.length (BudgetTrackerApp.objects app))])
       (BudgetTrackerApp.objects app
        ++ [BudgetMonth.init (month_key_from_date exp_date)])).
Proof.
  intros Hd Hs Hpos Hg. unfold UI.add_expense_submit.
  rewrite Hd, Hs. cbn [negb].
  rewrite (proj2 (Qleb_false _ _) Hpos).
  rewrite (get_month_absent app _ Hg).
  unfold BudgetTrackerApp.deref. cbn [BudgetTrackerApp.objects].
  rewrite nth_error_app2 by lia. rewrite Nat.sub_diag. reflexivity.
Qed.

Lemma add_expense_submit_registers_month_witness :
  Dict.keys
    (BudgetTrackerApp.months
       (snd (UI.add_expense_submit 0%nat {| year := 2024; month := 4; day := 1 |}
               "Expenses" 10 "" (snd app_one_expense))))
  = ["2024-03"%string; "2024-04"%string].
Proof.
  destruct month_one_expense as [m|] eqn:Hm; [|discriminate Hm].
  assert (Hs : BudgetMonth.is_setup m = true).
  { unfold month_one_expense in Hm. vm_compute in Hm.
    injection Hm as <-. reflexivity. }
  rewrite (@add_expense_submit_registers_month 0%nat
             {| year := 2024; month := 4; day := 1 |} "Expenses" 10 ""
             (snd app_one_expense) m Hm Hs eq_refl eq_refl).
  reflexivity.
Defined.

(** ** The category forms *)

(** Unless it reports the category added, the settings form leaves the
    application exactly as it was. *)
Theorem settings_add_category_refused (cur : BudgetTrackerApp.ref)
    (new_name new_type : string) (new_val : Q) (app : BudgetTrackerApp.t) :
  fst (UI.settings_add_category cur new_name new_type new_val app)
  <> OkCategoryAdded ->
  snd (UI.settings_add_category cur new_name new_type new_val app) = app.
Proof.
  unfold UI.settings_add_category.
  destruct (BudgetTrackerApp.deref cur app) as [m|] eqn:Hd; [|reflexivity].
  destruct (negb (BudgetMonth.is_setup m)); [reflexivity|].
  destruct (BudgetMonth.budget m) as [b|]; [|reflexivity].
  cbv zeta.
  destruct (Qleb new_val 0); [reflexivity|].
  destruct (str_is_empty (strip new_name)); [reflexivity|].
  destruct (Dict.mem new_name (BudgetMonth.categories m)); [reflexivity|].
  destruct (Qgtb _ _); [reflexivity|].
  pose proof (add_category_rejects m (Category.mk new_name new_type new_val))
    as Hrej.
  destruct (BudgetMonth.add_category (Category.mk new_name new_type new_val) m)
    as [ok m'].
  destruct ok; cbn [fst snd] in *; [congruence|].
  intros _. rewrite Hrej by reflexivity. now apply store_same.
Qed.

Lemma settings_add_category_refused_witness :
  snd (UI.settings_add_category (fst app_food_fun) "Extra" "fixed" 500
         (snd app_food_fun))
  = snd app_food_fun.
Proof.
  apply settings_add_category_refused. vm_compute. discriminate.
Defined.

(** X26. The settings form looks the name up as typed, [add_category] looks it
    up trimmed. A name that only differs from an existing category by
    surrounding white space, with a valid value that fits the remaining
    allocation, passes every check of the form and is then refused by
    [add_category]: the form shows neither a success nor an error, and
    nothing changes. *)
Theorem settings_add_category_silent (cur : BudgetTrackerApp.ref)
    (new_name new_type : string) (new_val : Q) (app : BudgetTrackerApp.t)
    (m : BudgetMonth.t) (b : Q) :
  BudgetTrackerApp.deref cur app = Some m ->
  BudgetMonth.is_setup m = true ->
  BudgetMonth.budget m = Some b ->
  0 < new_val ->
  strip new_name <> EmptyString ->
  Dict.mem new_name (BudgetMonth.categories m) = false ->
  Dict.mem (strip new_name) (BudgetMonth.categories m) = true ->
  UI.requested new_type new_val b <= b - allocation m b + 1e-9 ->
  UI.settings_add_category cur new_name new_type new_val app = (Silent, app).
Proof.
  intros Hd Hs Hb Hv Hname Hraw Htrim Hfit. unfold UI.settings_add_category.
  rewrite Hd, Hs, Hb. cbn [negb]. cbv zeta.
  rewrite (proj2 (Qleb_false _ _) Hv).
  assert (Hne : str_is_empty (strip new_name) = false)
    by now apply str_is_empty_false.
  rewrite Hne, Hraw. unfold allocation in Hfit.
  rewrite (proj2 (Qgtb_false _ _) Hfit).
  unfold BudgetMonth.add_category. cbv zeta.
  cbn [Category.name]. rewrite Hne, Htrim. cbn [orb].
  now rewrite store_same.
Qed.

Lemma settings_add_category_silent_witness :
  UI.settings_add_category (fst app_food_fun) " Food " "fixed" 100
    (snd app_food_fun)
  = (Silent, snd app_food_fun).
Proof.
  destruct (BudgetTrackerApp.deref (fst app_food_fun) (snd app_food_fun))
    as [m|] eqn:Hm; [|discriminate Hm].
  assert (Hm' := Hm). vm_compute in Hm'. injection Hm' as Hm'.
  apply (@settings_add_category_silent (fst app_food_fun) " Food " "fixed" 100
           (snd app_food_fun) m 1000 Hm);
    subst m; try reflexivity; vm_compute; discriminate.
Defined.

(** X25. In a set-up month the settings form reports the category added
    exactly when the value is positive, the name is not blank, neither the
    name as typed nor the trimmed name is a key of the category map, and the
    requested amount is at most the remaining amount plus 1e-9, both as the
    form computes them. It then files the category, with the name as typed,
    under the trimmed name after the existing entries; in every other case
    the application is left as it was. *)
Theorem settings_add_category_accepts (cur : BudgetTrackerApp.ref)
    (new_name new_type : string) (new_val : Q) (app : BudgetTrackerApp.t)
    (m : BudgetMonth.t) (b : Q) :
  BudgetTrackerApp.deref cur app = Some m ->
  BudgetMonth.is_setup m = true ->
  BudgetMonth.budget m = Some b ->
  let r := UI.settings_add_category cur new_name new_type new_val app in
  (fst r = OkCategoryAdded <->
   0 < new_val /\
   strip new_name <> EmptyString /\
   Dict.mem new_name (BudgetMonth.categories m) = false /\
   Dict.mem (strip new_name) (BudgetMonth.categories m) = false /\
   UI.requested new_type new_val b <= b - allocation m b + 1e-9) /\
  (fst r = OkCategoryAdded ->
   snd r
   = BudgetTrackerApp.store cur
       (BudgetMonth.with_categories
          (BudgetMonth.categories m
           ++ [(strip new_name, Category.mk new_name new_type new_val)]) m)
       app) /\
  (fst r <> OkCategoryAdded -> snd r = app).
Proof.
  intros Hd Hs Hb. unfold UI.settings_add_category, allocation.
  rewrite Hd, Hs, Hb. cbn [negb]. cbv zeta.
  destruct (Qleb new_val 0) eqn:Hv.
  { apply Qleb_true in Hv. cbn [fst snd].
    split; [split; [discriminate|] | split; [discriminate | reflexivity]].
    intros (Hpos & _). exfalso. exact (Qlt_not_le _ _ Hpos Hv). }
  apply Qleb_false in Hv.
  destruct (str_is_empty (strip new_name)) eqn:Hn.
  { apply str_is_empty_true in Hn. cbn [fst snd].
    split; [split; [discriminate|] | split; [discriminate | reflexivity]].
    intros (_ & Hne & _). congruence. }
  destruct (Dict.mem new_name (BudgetMonth.categories m)) eqn:Hraw.
  { cbn [fst snd].
    split; [split; [discriminate|] | split; [discriminate | reflexivity]].
    intros (_ & _ & Habs & _). discriminate. }
  destruct (Qgtb (UI.requested new_type new_val b)
              (b - UI.allocated b (Dict.values (BudgetMonth.categories m))
               + 1e-9)) eqn:Hchk.
  { apply Qgtb_true in Hchk. cbn [fst snd].
    split; [split; [discriminate|] | split; [discriminate | reflexivity]].
    intros (_ & _ & _ & _ & Hfit). exfalso. exact (Qlt_not_le _ _ Hchk Hfit). }
  apply Qgtb_false in Hchk.
  unfold BudgetMonth.add_category. cbv zeta. cbn [Category.name].
  rewrite Hn. cbn [orb].
  destruct (Dict.mem (strip new_name) (BudgetMonth.categories m)) eqn:Htrim;
    cbn [fst snd].
  { split; [split; [discriminate|] | split; [discriminate|]].
    - intros (_ & _ & _ & Habs & _). discriminate.
    - intros _. now apply store_same. }
  apply str_is_empty_false in Hn.
  split; [split; [intros _; now repeat split | reflexivity]|].
  split; [|congruence].
  intros _. now rewrite set_fresh.
Qed.

Lemma settings_add_category_accepts_witness :
  fst (UI.settings_add_category (fst app_food_fun) "Extra" "fixed" 400
         (snd app_food_fun))
  = OkCategoryAdded.
Proof.
  destruct (BudgetTrackerApp.deref (fst app_food_fun) (snd app_food_fun))
    as [m|] eqn:Hm; [|discriminate Hm].
  assert (Hm' := Hm). vm_compute in Hm'. injection Hm' as Hm'.
  apply (proj1 (@settings_add_category_accepts (fst app_food_fun) "Extra"
                  "fixed" 400 (snd app_food_fun) m 1000 Hm
                  ltac:(subst m; reflexivity) ltac:(subst m; reflexivity))).
  subst m. repeat split; try reflexivity; vm_compute; discriminate.
Defined.

(** ** The custom-setup form *)

(** X27. "Add to List" accepts a candidate exactly when its value is
    positive, its name is not blank and the requested amount is at most the
    remaining amount plus 1e-9, both as the form computes them under the
    typed budget; a name that is already listed is not refused. An accepted
    candidate goes last as typed, a refused one changes nothing, and a list
    whose categories all have a positive value and a name that is not blank
    stays so. *)
Theorem setup_add_to_list_spec (budget_input : Q)
    (new_name new_type : string) (new_val : Q) (temp_cats : list Category.t) :
  let r := UI.setup_add_to_list budget_input new_name new_type new_val
             temp_cats in
  (fst r = OkListed <->
   0 < new_val /\
   strip new_name <> EmptyString /\
   UI.requested new_type new_val budget_input
   <= budget_input - UI.allocated budget_input temp_cats + 1e-9) /\
  (fst r = OkListed ->
   snd r = temp_cats ++ [Category.mk new_name new_type new_val]) /\
  (fst r <> OkListed -> snd r = temp_cats) /\
  (Forall (fun c => 0 < Category.value c /\
                    strip (Category.name c) <> EmptyString) temp_cats ->
   Forall (fun c => 0 < Category.value c /\
                    strip (Category.name c) <> EmptyString) (snd r)).
Proof.
  unfold UI.setup_add_to_list. cbv zeta.
  destruct (Qleb new_val 0) eqn:Hv.
  { apply Qleb_true in Hv. cbn [fst snd].
    split; [split; [discriminate|] | split; [discriminate | now split]].
    intros (Hpos & _). exfalso. exact (Qlt_not_le _ _ Hpos Hv). }
  apply Qleb_false in Hv.
  destruct (str_is_empty (strip new_name)) eqn:Hn.
  { apply str_is_empty_true in Hn. cbn [fst snd].
    split; [split; [discriminate|] | split; [discriminate | now split]].
    intros (_ & Hne & _). congruence. }
  apply str_is_empty_false in Hn.
  destruct (Qgtb (UI.requested new_type new_val budget_input)
              (budget_input - UI.allocated budget_input temp_cats + 1e-9))
    eqn:Hchk.
  { apply Qgtb_true in Hchk. cbn [fst snd].
    split; [split; [discriminate|] | split; [discriminate | now split]].
    intros (_ & _ & Hfit). exfalso. exact (Qlt_not_le _ _ Hchk Hfit). }
  apply Qgtb_false in Hchk. cbn [fst snd].
  split; [split; [intros _; now repeat split | reflexivity]|].
  split; [reflexivity|]. split; [congruence|].
  intros Hall. apply Forall_app. split; [assumption|].
  constructor; [|constructor]. cbn. now split.
Qed.

Lemma setup_add_to_list_spec_witness :
  fst (UI.setup_add_to_list 1000 "Food" "fixed" 400 []) = OkListed.
Proof.
  apply (proj1 (setup_add_to_list_spec 1000 "Food" "fixed" 400 [])).
  repeat split; vm_compute; discriminate.
Defined.

Lemma fold_add_category (temp_cats : list Category.t) (m0 : BudgetMonth.t) :
  NoDup (Dict.keys (BudgetMonth.categories m0)
         ++ map (fun c => strip (Category.name c)) temp_cats) ->
  Forall (fun c => strip (Category.name c) <> EmptyString) temp_cats ->
  fold_left (fun m c => snd (BudgetMonth.add_category c m)) temp_cats m0
  = BudgetMonth.with_categories
      (BudgetMonth.categories m0
       ++ map (fun c => (strip (Category.name c), c)) temp_cats) m0.
Proof.
  revert m0. induction temp_cats as [|c rest IH]; intros m0 Hnd Hne.
  - cbn. rewrite app_nil_r. now destruct m0.
  - cbn [fold_left map]. inversion Hne as [|? ? Hc Hrest]; subst.
    assert (Hok : fst (BudgetMonth.add_category c m0) = true).
    { apply add_category_true. split; [assumption|].
      apply mem_false_iff. apply NoDup_remove_2 in Hnd.
      intros Hin. apply Hnd. apply in_app_iff. now left. }
    rewrite (add_category_inserts m0 c Hok).
    rewrite IH.
    + month_fields. now rewrite <- app_assoc.
    + month_fields. unfold Dict.keys in *. rewrite map_app. cbn [map fst].
      rewrite <- app_assoc. exact Hnd.
    + assumption.
Qed.

(** X28. "Finalize Setup & Save All" on a month without categories, with a
    non-empty list whose names are not blank and pairwise different once
    trimmed: the typed budget is stored, every listed category is filed
    under its trimmed name in the order of the list, the limits of the
    month sum to what the list summed to, the list is emptied and the
    ledger is untouched. *)
Theorem setup_finalize_spec (cur : BudgetTrackerApp.ref) (budget_input : Q)
    (temp_cats : list Category.t) (app : BudgetTrackerApp.t)
    (m : BudgetMonth.t) :
  BudgetTrackerApp.deref cur app = Some m ->
  BudgetMonth.categories m = [] ->
  temp_cats <> [] ->
  NoDup (map (fun c => strip (Category.name c)) temp_cats) ->
  Forall (fun c => strip (Category.name c) <> EmptyString) temp_cats ->
  exists m',
    UI.setup_finalize cur budget_input temp_cats app
    = (OkSetupSaved, (BudgetTrackerApp.store cur m' app, [])) /\
    BudgetMonth.budget m' = Some budget_input /\
    BudgetMonth.categories m'
    = map (fun c => (strip (Category.name c), c)) temp_cats /\
    allocation m' budget_input = UI.allocated budget_input temp_cats /\
    BudgetMonth.is_setup m' = true /\
    BudgetMonth.expenses m' = BudgetMonth.expenses m.
Proof.
  intros Hd Hc Htemp Hnd Hne. unfold UI.setup_finalize. rewrite Hd.
  assert (Hns : BudgetMonth.is_setup m = false).
  { unfold BudgetMonth.is_setup. rewrite Hc.
    destruct (BudgetMonth.budget m); reflexivity. }
  rewrite Hns.
  destruct temp_cats as [|c rest] eqn:Ht; [congruence|]. rewrite <- Ht in *.
  rewrite fold_add_category.
  - eexists. split; [reflexivity|]. month_fields.
    unfold BudgetMonth.set_budget. month_fields. rewrite Hc. cbn [List.app].
    split; [reflexivity|]. split; [reflexivity|].
    split; [|split; [|reflexivity]].
    + unfold allocation, Dict.values. month_fields.
      rewrite map_map. cbn [snd]. now rewrite map_id.
    + unfold BudgetMonth.is_setup. month_fields. rewrite Ht. reflexivity.
  - unfold BudgetMonth.set_budget. month_fields. now rewrite Hc.
  - assumption.
Qed.

Lemma setup_finalize_spec_witness :
  exists m',
    UI.setup_finalize 0%nat 1000
      [Category.mk "Food" "fixed" 400; Category.mk " Fun " "percent" 20]
      (snd (BudgetTrackerApp.get_month "2024-03" BudgetTrackerApp.init))
    = (OkSetupSaved,
       (BudgetTrackerApp.store 0%nat m'
          (snd (BudgetTrackerApp.get_month "2024-03" BudgetTrackerApp.init)),
        [])) /\
    Dict.keys (BudgetMonth.categories m') = ["Food"%string; "Fun"%string].
Proof.
  destruct (@setup_finalize_spec 0%nat 1000
              [Category.mk "Food" "fixed" 400; Category.mk " Fun " "percent" 20]
              (snd (BudgetTrackerApp.get_month "2024-03" BudgetTrackerApp.init))
              (BudgetMonth.init "2024-03") eq_refl eq_refl)
    as (m' & Hrun & _ & Hcats & _).
  - discriminate.
  - vm_compute. repeat constructor; simpl; intuition discriminate.
  - vm_compute. repeat constructor; discriminate.
  - exists m'. split; [exact Hrun|]. rewrite Hcats. reflexivity.
Defined.

(** ** The edit form *)






(** ** Month keys *)

Lemma string_length_append (a b : string) :
  String.length (a ++ b) = (String.length a + String.length b)%nat.
Proof. induction a as [|x a IH]; simpl; [reflexivity | now rewrite IH]. Qed.

Lemma zero_pad_length (width : nat) (n : Z) :
  String.length (zero_pad width n) = width.
Proof.
  revert n. induction width as [|w IH]; intros n; cbn [zero_pad];
    [reflexivity|].
  rewrite string_length_append, IH. simpl. lia.
Qed.

Lemma append_same_length (a b c d : string) :
  String.length a = String.length b ->
  (a ++ c)%string = (b ++ d)%string -> a = b /\ c = d.
Proof.
  revert b. induction a as [|x a IH]; intros [|y b]; simpl; try discriminate.
  - auto.
  - intros [= Hlen] [= -> Happ]. destruct (IH b Hlen Happ) as [-> ->]. auto.
Qed.

Lemma digit_injective (a b : Z) :
  (0 <= a < 10)%Z -> (0 <= b < 10)%Z ->
  ascii_of_nat (48 + Z.to_nat a) = ascii_of_nat (48 + Z.to_nat b) -> a = b.
Proof.
  intros Ha Hb Heq.
  assert (Hn : (48 + Z.to_nat a = 48 + Z.to_nat b)%nat).
  { rewrite <- (nat_ascii_embedding (48 + Z.to_nat a)) by lia.
    rewrite <- (nat_ascii_embedding (48 + Z.to_nat b)) by lia.
    now rewrite Heq. }
  lia.
Qed.

Lemma zero_pad_injective (width : nat) (a b : Z) :
  (0 <= a < 10 ^ Z.of_nat width)%Z -> (0 <= b < 10 ^ Z.of_nat width)%Z ->
  zero_pad width a = zero_pad width b -> a = b.
Proof.
  revert a b. induction width as [|w IH]; intros a b Ha Hb.
  - simpl in Ha, Hb. lia.
  - cbn [zero_pad]. intros Heq.
    rewrite Nat2Z.inj_succ, Z.pow_succ_r in Ha, Hb by lia.
    apply append_same_length in Heq; [|now rewrite !zero_pad_length].
    destruct Heq as [Hhi Hlo]. injection Hlo as Hlo.
    apply digit_injective in Hlo; try (apply Z.mod_pos_bound; lia).
    apply IH in Hhi.
    + rewrite (Z.div_mod a 10), (Z.div_mod b 10) by lia. congruence.
    + split; [apply Z.div_pos; lia | apply Z.div_lt_upper_bound; lia].
    + split; [apply Z.div_pos; lia | apply Z.div_lt_upper_bound; lia].
Qed.

(** X30. Two dates with a four-digit year get the same month key exactly when
    they lie in the same month of the same year; the key is seven
    characters long. *)
Theorem month_key_same_month (d1 d2 : date) :
  plain_date d1 -> plain_date d2 ->
  (month_key_from_date d1 = month_key_from_date d2 <->
   year d1 = year d2 /\ month d1 = month d2) /\
  String.length (month_key_from_date d1) = 7%nat.
Proof.
  intros [Hy1 Hm1] [Hy2 Hm2]. unfold month_key_from_date. split.
  - split.
    + intros Heq.
      apply append_same_length in Heq; [|now rewrite !zero_pad_length].
      destruct Heq as [Hy Hm].
      apply (append_same_length "-" "-") in Hm; [|reflexivity].
      destruct Hm as [_ Hm].
      split; [apply (zero_pad_injective 4) | apply (zero_pad_injective 2)];
        try assumption;
        change (10 ^ Z.of_nat 4)%Z with 10000%Z;
        change (10 ^ Z.of_nat 2)%Z with 100%Z; lia.
    + intros [-> ->]. reflexivity.
  - rewrite string_length_append, zero_pad_length. cbn [String.length append].
    rewrite zero_pad_length. reflexivity.
Qed.

Lemma month_key_same_month_witness :
  month_key_from_date march_5
  = month_key_from_date {| year := 2024; month := 3; day := 31 |}.
Proof.
  apply (proj1 (@month_key_same_month march_5
                  {| year := 2024; month := 3; day := 31 |}
                  ltac:(split; cbn; lia) ltac:(split; cbn; lia))).
  split; reflexivity.
Defined.
